(** * krouter: the GRE tunnel / route reconciler, embedded and verified

    Two programs of the repository are embedded:
    - [Plain]: [main.go], which applies every item unconditionally;
    - [Probed]: the program listed in [README.md], which first probes the
      kernel state ([tunnelExists], [routeExists], [ecmpRouteExists]).

    Go strings are byte strings and are modelled by [string]; a Go [error]
    is modelled by its message; the process-wide variables [currentHash]
    and [config] live in an explicit state that every function threads. *)

From Stdlib Require Import ZArith List String Ascii Bool Lia Arith.
From Stdlib Require Import DecimalString DecimalPos DecimalZ.
Import ListNotations.

Local Open Scope string_scope.
Local Open Scope list_scope.

(** ** Go library functions used by the program *)

Module GoStrings.

(** [strings.HasPrefix(s, p)]. *)
Fixpoint HasPrefix (s p : string) : bool :=
  match p, s with
  | EmptyString, _ => true
  | String _ _, EmptyString => false
  | String c p', String d s' => Ascii.eqb d c && HasPrefix s' p'
  end.

(** [strings.Contains(s, substr)]: is there an offset of [s] at which
    [substr] starts. *)
Fixpoint Contains (s substr : string) : bool :=
  HasPrefix s substr ||
  match s with
  | EmptyString => false
  | String _ s' => Contains s' substr
  end.

(** [strconv.Itoa]: decimal text, with a leading minus sign below zero. *)
Definition Itoa (i : Z) : string := NilZero.string_of_int (Z.to_int i).

(** [strings.Join(elems, sep)]. *)
Fixpoint Join (elems : list string) (sep : string) : string :=
  match elems with
  | [] => ""
  | [x] => x
  | x :: rest => x ++ sep ++ Join rest sep
  end.

(** [bufio.MaxScanTokenSize]. *)
Definition MaxScanTokenSize : nat := 64 * 1024.

Definition LF : ascii := ascii_of_nat 10.
Definition CR : ascii := ascii_of_nat 13.

(** The [dropCR] helper of [bufio.ScanLines]: one trailing carriage return
    is removed.  The line is held reversed, last byte first. *)
Definition dropCR (rev_line : list ascii) : list ascii :=
  match rev_line with
  | c :: rest => if Ascii.eqb c CR then rest else rev_line
  | [] => []
  end.

Definition line_of (rev_line : list ascii) : string :=
  string_of_list_ascii (rev (dropCR rev_line)).

(** The tokens a [bufio.Scanner] with the default split function
    ([ScanLines]) and the default buffer yields on the text [s]:
    the lines without their terminator; a last line without terminator
    counts when it is not empty; scanning stops without a token at the
    first line that does not fit the buffer.  [cur] is the line read so
    far, reversed. *)
Fixpoint scanLines (cur : list ascii) (s : string) : list string :=
  match s with
  | EmptyString =>
      match cur with
      | [] => []
      | _ => if Nat.ltb (List.length cur) MaxScanTokenSize
             then [line_of cur] else []
      end
  | String c s' =>
      if Ascii.eqb c LF then
        if Nat.ltb (List.length cur) MaxScanTokenSize
        then line_of cur :: scanLines [] s'
        else []
      else scanLines (c :: cur) s'
  end.

Definition Lines (s : string) : list string := scanLines [] s.

End GoStrings.

(** [crypto/md5] and [encoding/hex], after RFC 1321.  Words are [Z] in
    the range of [uint32], additions wrap modulo [2^32]. *)
Module MD5.
Local Open Scope Z_scope.

Definition w32 (x : Z) : Z := x mod 2 ^ 32.

Definition not32 (x : Z) : Z := Z.lxor x 0xffffffff.

Definition rotl (x s : Z) : Z :=
  w32 (Z.lor (Z.shiftl x s) (Z.shiftr x (32 - s))).

Definition K : list Z :=
  [ 0xd76aa478; 0xe8c7b756; 0x242070db; 0xc1bdceee;
    0xf57c0faf; 0x4787c62a; 0xa8304613; 0xfd469501;
    0x698098d8; 0x8b44f7af; 0xffff5bb1; 0x895cd7be;
    0x6b901122; 0xfd987193; 0xa679438e; 0x49b40821;
    0xf61e2562; 0xc040b340; 0x265e5a51; 0xe9b6c7aa;
    0xd62f105d; 0x02441453; 0xd8a1e681; 0xe7d3fbc8;
    0x21e1cde6; 0xc33707d6; 0xf4d50d87; 0x455a14ed;
    0xa9e3e905; 0xfcefa3f8; 0x676f02d9; 0x8d2a4c8a;
    0xfffa3942; 0x8771f681; 0x6d9d6122; 0xfde5380c;
    0xa4beea44; 0x4bdecfa9; 0xf6bb4b60; 0xbebfbc70;
    0x289b7ec6; 0xeaa127fa; 0xd4ef3085; 0x04881d05;
    0xd9d4d039; 0xe6db99e5; 0x1fa27cf8; 0xc4ac5665;
    0xf4292244; 0x432aff97; 0xab9423a7; 0xfc93a039;
    0x655b59c3; 0x8f0ccc92; 0xffeff47d; 0x85845dd1;
    0x6fa87e4f; 0xfe2ce6e0; 0xa3014314; 0x4e0811a1;
    0xf7537e82; 0xbd3af235; 0x2ad7d2bb; 0xeb86d391 ].

Definition shifts : list Z :=
  [ 7; 12; 17; 22; 7; 12; 17; 22; 7; 12; 17; 22; 7; 12; 17; 22;
    5; 9; 14; 20; 5; 9; 14; 20; 5; 9; 14; 20; 5; 9; 14; 20;
    4; 11; 16; 23; 4; 11; 16; 23; 4; 11; 16; 23; 4; 11; 16; 23;
    6; 10; 15; 21; 6; 10; 15; 21; 6; 10; 15; 21; 6; 10; 15; 21 ].

Definition digest : Type := (Z * Z * Z * Z)%type.

Definition init : digest := (0x67452301, 0xefcdab89, 0x98badcfe, 0x10325476).

(** One of the 64 steps on the block [M] of sixteen words. *)
Definition step (M : list Z) (st : digest) (i : nat) : digest :=
  let '(a, b, c, d) := st in
  let iz := Z.of_nat i in
  let '(f, g) :=
    if iz <? 16 then (Z.lor (Z.land b c) (Z.land (not32 b) d), iz)
    else if iz <? 32 then
      (Z.lor (Z.land d b) (Z.land (not32 d) c), (5 * iz + 1) mod 16)
    else if iz <? 48 then (Z.lxor (Z.lxor b c) d, (3 * iz + 5) mod 16)
    else (Z.lxor c (Z.lor b (not32 d)), (7 * iz) mod 16) in
  let x := w32 (a + f + nth i K 0 + nth (Z.to_nat g) M 0) in
  (d, w32 (b + rotl x (nth i shifts 0)), b, c).

(** Little-endian words of a list of bytes. *)
Fixpoint words (bs : list Z) : list Z :=
  match bs with
  | b0 :: b1 :: b2 :: b3 :: rest =>
      (b0 + 2 ^ 8 * b1 + 2 ^ 16 * b2 + 2 ^ 24 * b3) :: words rest
  | _ => []
  end.

Definition block (st : digest) (bs : list Z) : digest :=
  let '(a, b, c, d) := st in
  let '(a', b', c', d') := fold_left (step (words bs)) (seq 0 64) st in
  (w32 (a + a'), w32 (b + b'), w32 (c + c'), w32 (d + d')).

Fixpoint blocks (n : nat) (st : digest) (bs : list Z) : digest :=
  match n with
  | O => st
  | S n' => blocks n' (block st (firstn 64 bs)) (skipn 64 bs)
  end.

Definition le_bytes (n : nat) (x : Z) : list Z :=
  map (fun i => (x / 2 ^ (8 * Z.of_nat i)) mod 256) (seq 0 n).

(** The message followed by the bit [1], zero bits up to 56 modulo 64
    bytes, and the length in bits on 64 bits. *)
Definition pad (bs : list Z) : list Z :=
  let len := Z.of_nat (List.length bs) in
  bs ++ [128] ++ repeat 0 (Z.to_nat ((55 - len) mod 64))
     ++ le_bytes 8 ((8 * len) mod 2 ^ 64).

Definition bytes_of_string (s : string) : list Z :=
  map (fun c => Z.of_nat (nat_of_ascii c)) (list_ascii_of_string s).

(** [md5.Sum(data)]: the sixteen bytes of the digest. *)
Definition Sum (data : string) : list Z :=
  let p := pad (bytes_of_string data) in
  let '(a, b, c, d) := blocks (List.length p / 64) init p in
  le_bytes 4 a ++ le_bytes 4 b ++ le_bytes 4 c ++ le_bytes 4 d.

Definition hexdigit (x : Z) : ascii :=
  nth (Z.to_nat x) (list_ascii_of_string "0123456789abcdef") "0"%char.

(** [hex.EncodeToString]. *)
Fixpoint EncodeToString (bs : list Z) : string :=
  match bs with
  | [] => ""
  | b :: rest =>
      String (hexdigit (b / 16)) (String (hexdigit (b mod 16))
        (EncodeToString rest))
  end.

(** The inverse reading of hexadecimal text, to write byte strings down. *)
Definition unhexdigit (c : ascii) : nat :=
  let n := nat_of_ascii c in
  if Nat.leb 97 n then n - 87 else n - 48.

Fixpoint DecodeString (s : string) : string :=
  match s with
  | String h (String l rest) =>
      String (ascii_of_nat (16 * unhexdigit h + unhexdigit l))
        (DecodeString rest)
  | _ => ""
  end.

End MD5.

(** ** The desired state ([Config]) *)

Definition error : Type := string.

Record Tunnel := mkTunnel {
  Name : string;
  LocalIP : string;
  RemoteIP : string;
  TunnelIP : string;
  SubnetMask : string }.

Record StaticRoute := mkStaticRoute {
  Destination : string;
  Gateway : string }.

Record Nexthop := mkNexthop {
  Dev : string;
  Via : string;
  Weight : Z }.

Record ECMPRoute := mkECMPRoute {
  Route : string;
  Table : string;
  Nexthops : list Nexthop }.

Record LoggingFlags := mkLogging {
  Info : bool;
  Error : bool;
  Debug : bool }.

Record Settings := mkSettings {
  LogFilePath : string;
  Logging : LoggingFlags }.

Record Config := mkConfig {
  ProgramSettings : Settings;
  GRETunnels : list Tunnel;
  StaticRoutes : list StaticRoute;
  ECMPRoutes : list ECMPRoute }.

(** ** The host the program runs on

    Everything the program asks of its environment: running a command
    ([exec.Command(...).Run()] with the standard output captured),
    reading a file ([ioutil.ReadFile]), opening the log file
    ([os.OpenFile]) and decoding YAML into the current configuration
    ([yaml.Unmarshal(data, &config)], which writes into [config] also when
    it reports an error).  The host has a state of its own, which every
    request may change: the kernel tables, the file system, other
    processes. *)
Class Host := {
  OS : Type;
  os_run : OS -> string -> list string -> OS * (string * option error);
  os_readFile : OS -> string -> OS * (string * option error);
  os_openFile : OS -> string -> OS * option error;
  yaml_Unmarshal : string -> Config -> Config * option error }.

(** The requests made to the host, each with the error it came back with. *)
Inductive Call :=
| Exec (command : string) (args : list string) (err : option error)
| ReadFile (path : string) (err : option error)
| OpenFile (path : string) (err : option error).

(** The argument vectors of the commands run, in order. *)
Fixpoint issued (tr : list Call) : list (list string) :=
  match tr with
  | [] => []
  | Exec _ args _ :: rest => args :: issued rest
  | _ :: rest => issued rest
  end.

(** The paths read, in order. *)
Fixpoint reads (tr : list Call) : list string :=
  match tr with
  | [] => []
  | ReadFile path _ :: rest => path :: reads rest
  | _ :: rest => reads rest
  end.

(** Which phase a command belongs to, read off its arguments. *)
Definition isTunnelOp (args : list string) : bool :=
  match args with
  | x :: _ => String.eqb x "tunnel" || String.eqb x "addr" || String.eqb x "link"
  | [] => false
  end.

Definition isStaticOp (args : list string) : bool :=
  match args with
  | [r; s] => String.eqb r "route" && String.eqb s "show"
  | [r; a; _; v; _] =>
      String.eqb r "route" && String.eqb a "add" && String.eqb v "via"
  | _ => false
  end.

Definition isECMPOp (args : list string) : bool :=
  match args with
  | [r; s; t; _] =>
      String.eqb r "route" && String.eqb s "show" && String.eqb t "table"
  | r :: a :: _ :: p :: _ :: _ :: _ :: _ :: _ :: _ =>
      String.eqb r "route" && String.eqb a "add" && String.eqb p "proto"
  | _ => false
  end.

Fixpoint sameArgs (a b : list string) : bool :=
  match a, b with
  | [], [] => true
  | x :: a', y :: b' => String.eqb x y && sameArgs a' b'
  | _, _ => false
  end.

(** The commands that create a tunnel: add, address assignment, link up. *)
Definition isCreateStep (tunnel : Tunnel) (args : list string) : bool :=
  sameArgs args
    ["tunnel"; "add"; Name tunnel; "mode"; "gre"; "local"; LocalIP tunnel;
     "remote"; RemoteIP tunnel]
  || sameArgs args
    ["addr"; "add"; (TunnelIP tunnel ++ "/" ++ SubnetMask tunnel)%string; "dev";
     Name tunnel]
  || sameArgs args ["link"; "set"; Name tunnel; "up"].

(** ** Program state and the monad that threads it *)

Section Machine.
Context {H : Host}.

(** The host, the requests made so far, the lines handed to the logger,
    and the package variables [currentHash] and [config]. *)
Record State := mkState {
  os : OS;
  calls : list Call;
  logs : list string;
  currentHash : string;
  config : Config }.

Definition M (A : Type) : Type := State -> A * State.

Definition ret {A} (x : A) : M A := fun st => (x, st).

Definition bind {A B} (m : M A) (k : A -> M B) : M B :=
  fun st => let '(x, st') := m st in k x st'.

Definition getConfig : M Config := fun st => (config st, st).

Definition getCurrentHash : M string := fun st => (currentHash st, st).

Definition setCurrentHash (h : string) : M unit :=
  fun st => (tt, mkState (os st) (calls st) (logs st) h (config st)).

(** [logger.Printf] and [logger.Println]: the formatted line goes to the
    log sink. *)
Definition Printf (line : string) : M unit :=
  fun st =>
    (tt, mkState (os st) (calls st) (logs st ++ [line]) (currentHash st)
           (config st)).

(** [exec.Command(command, args...)] run to completion: the captured
    standard output and the error. *)
Definition runCommand (command : string) (args : list string)
  : M (string * option error) :=
  fun st =>
    let '(o, (out, err)) := os_run (os st) command args in
    ((out, err),
     mkState o (calls st ++ [Exec command args err]) (logs st)
       (currentHash st) (config st)).

(** [ioutil.ReadFile]. *)
Definition ioReadFile (path : string) : M (string * option error) :=
  fun st =>
    let '(o, (data, err)) := os_readFile (os st) path in
    ((data, err),
     mkState o (calls st ++ [ReadFile path err]) (logs st) (currentHash st)
       (config st)).

(** [os.OpenFile] of the log file. *)
Definition osOpenFile (path : string) : M (option error) :=
  fun st =>
    let '(o, err) := os_openFile (os st) path in
    (err,
     mkState o (calls st ++ [OpenFile path err]) (logs st) (currentHash st)
       (config st)).

(** [yaml.Unmarshal(data, &config)]. *)
Definition Unmarshal (data : string) : M (option error) :=
  fun st =>
    let '(c, err) := yaml_Unmarshal data (config st) in
    (err, mkState (os st) (calls st) (logs st) (currentHash st) c).

(** [for _, x := range l { body }] where the body may [return err]:
    [Some err] leaves the function with that error, [None] goes on with
    the next element; after the last one the function returns [nil]. *)
Fixpoint forRange {A} (body : A -> M (option error)) (l : list A)
  : M (option error) :=
  match l with
  | [] => ret None
  | x :: rest =>
      bind (body x) (fun r =>
        match r with
        | Some err => ret (Some err)
        | None => forRange body rest
        end)
  end.

End Machine.

Declare Scope go_scope.
Delimit Scope go_scope with go.
Notation "x <- m ;; k" := (bind m (fun x => k))
  (at level 100, m at next level, right associativity) : go_scope.
Notation "m ;; k" := (bind m (fun _ => k))
  (at level 100, right associativity) : go_scope.
Local Open Scope go_scope.

(** ** Change detection, loading, the watch loop and [main]

    This part of the text is the same in both programs, up to the path
    of the configuration file and the three set-up functions it calls. *)

(** [fsnotify.Op] is a bit set; [fsnotify.Write] is its second bit. *)
Definition fsnotify_Write : N := 2.

(** What the goroutine of [watchConfigFile] receives from the watcher. *)
Inductive Msg :=
| Event (op : N)
| EventsClosed
| Error_ (err : error)
| ErrorsClosed.

(** The watcher as the program sees it: whether it could be created,
    whether the path could be added, and what it then delivers. *)
Record Watcher := mkWatcher {
  NewWatcher_err : option error;
  Add_err : option error;
  deliveries : list Msg }.

(** Where [main] can stop with [Fatalf]/[Fatal]. *)
Inductive FatalSite :=
| AtLoadConfig | AtLogFile | AtTunnels | AtStaticRoutes | AtECMPRoutes
| AtHash | AtNewWatcher | AtWatcherAdd.

(** [main] either exits at a fatal site or stays blocked on [<-done],
    its goroutine waiting for the next message or returned. *)
Inductive Outcome :=
| Fatal (site : FatalSite) (err : error)
| Waiting.

Section Engine.
Context {H : Host}.

Definition getFileMD5 (filePath : string) : M (string * option error) :=
  r <- ioReadFile filePath ;;
  match snd r with
  | Some err => ret ("", Some err)
  | None => ret (MD5.EncodeToString (MD5.Sum (fst r)), None)
  end.

Definition loadConfig (filePath : string) : M (option error) :=
  r <- ioReadFile filePath ;;
  match snd r with
  | Some err => ret (Some err)
  | None => Unmarshal (fst r)
  end.

(** [initLogger]: opening the log file is the only step that can fail;
    the writer behind the logger is the log sink. *)
Definition initLogger (logFilePath : string) : M (option error) :=
  osOpenFile logFilePath.

Variable configFilePath : string.
Variables setupGRETunnels setupStaticRoutes setupECMPRoutes
  : M (option error).

Definition logIfErr (prefix : string) (r : option error) : M unit :=
  match r with
  | Some err => Printf (prefix ++ err)
  | None => ret tt
  end.

(** The three phases as the watch loop runs them: an error is logged and
    the next phase runs. *)
Definition reconcile : M unit :=
  r <- setupGRETunnels ;;
  logIfErr "Error setting up GRE tunnels: " r ;;
  r <- setupStaticRoutes ;;
  logIfErr "Error setting up static routes: " r ;;
  r <- setupECMPRoutes ;;
  logIfErr "Error setting up ECMP routes: " r.

(** The body of [if event.Op&fsnotify.Write == fsnotify.Write]. *)
Definition onWrite (filePath : string) : M unit :=
  r <- getFileMD5 filePath ;;
  match snd r with
  | Some err => Printf ("Error reading file: " ++ err)
  | None =>
      h <- getCurrentHash ;;
      if String.eqb (fst r) h then ret tt
      else
        setCurrentHash (fst r) ;;
        e <- loadConfig filePath ;;
        match e with
        | Some err => Printf ("Error loading config: " ++ err)
        | None => reconcile
        end
  end.

(** One turn of the [select]: [true] when the goroutine returns. *)
Definition onMsg (filePath : string) (m : Msg) : M bool :=
  match m with
  | Event op =>
      if N.eqb (N.land op fsnotify_Write) fsnotify_Write
      then (onWrite filePath ;; ret false)
      else ret false
  | EventsClosed => ret true
  | Error_ err => Printf ("Error: " ++ err) ;; ret false
  | ErrorsClosed => ret true
  end.

Fixpoint watchLoop (filePath : string) (ms : list Msg) : M unit :=
  match ms with
  | [] => ret tt
  | m :: rest =>
      stop <- onMsg filePath m ;;
      if stop then ret tt else watchLoop filePath rest
  end.

Definition watchConfigFile (filePath : string) (w : Watcher) : M Outcome :=
  match NewWatcher_err w with
  | Some err => Printf err ;; ret (Fatal AtNewWatcher err)
  | None =>
      match Add_err w with
      | Some err => Printf err ;; ret (Fatal AtWatcherAdd err)
      | None => watchLoop filePath (deliveries w) ;; ret Waiting
      end
  end.

Definition Fatalf (site : FatalSite) (prefix : string) (err : error)
  : M Outcome :=
  Printf (prefix ++ err) ;; ret (Fatal site err).

Definition main (w : Watcher) : M Outcome :=
  e <- loadConfig configFilePath ;;
  match e with
  | Some err => ret (Fatal AtLoadConfig err)
  | None =>
  cfg <- getConfig ;;
  e <- initLogger (LogFilePath (ProgramSettings cfg)) ;;
  match e with
  | Some err => ret (Fatal AtLogFile err)
  | None =>
  e <- setupGRETunnels ;;
  match e with
  | Some err => Fatalf AtTunnels "Error setting up initial GRE tunnels: " err
  | None =>
  e <- setupStaticRoutes ;;
  match e with
  | Some err =>
      Fatalf AtStaticRoutes "Error setting up initial static routes: " err
  | None =>
  e <- setupECMPRoutes ;;
  match e with
  | Some err =>
      Fatalf AtECMPRoutes "Error setting up initial ECMP routes: " err
  | None =>
  r <- getFileMD5 configFilePath ;;
  match snd r with
  | Some err => Fatalf AtHash "Error computing initial file hash: " err
  | None =>
      setCurrentHash (fst r) ;;
      watchConfigFile configFilePath w
  end end end end end end.

End Engine.

(** The argument construction of [setupECMPRoutes], the same text in both
    programs. *)
Definition nexthopArgs (nhs : list Nexthop) : list string :=
  fold_left
    (fun acc nh =>
       acc ++ ["nexthop"; "dev"; Dev nh; "via"; Via nh; "weight";
               GoStrings.Itoa (Weight nh)])
    nhs [].

Definition ecmpArgs (ecmp : ECMPRoute) : list string :=
  ["route"; "add"; Route ecmp; "proto"; "static"; "scope"; "global";
   "table"; Table ecmp] ++ nexthopArgs (Nexthops ecmp).

(** ** [main.go] *)

Module Plain.
Section Program.
Context {H : Host}.

Definition execCommand (command : string) (args : list string)
  : M (option error) :=
  r <- runCommand command args ;; ret (snd r).

(** The body of the loop of [setupGRETunnels]. *)
Definition tunnelBody (tunnel : Tunnel) : M (option error) :=
  e <- execCommand "ip" ["tunnel"; "del"; Name tunnel] ;;
  logIfErr ("Failed to delete tunnel " ++ Name tunnel ++ ": ") e ;;
  e <- execCommand "ip"
         ["tunnel"; "add"; Name tunnel; "mode"; "gre"; "local";
          LocalIP tunnel; "remote"; RemoteIP tunnel] ;;
  match e with
  | Some err => ret (Some err)
  | None =>
  e <- execCommand "ip"
         ["addr"; "add"; (TunnelIP tunnel ++ "/" ++ SubnetMask tunnel)%string; "dev";
          Name tunnel] ;;
  match e with
  | Some err => ret (Some err)
  | None =>
  e <- execCommand "ip" ["link"; "set"; Name tunnel; "up"] ;;
  match e with
  | Some err => ret (Some err)
  | None => Printf ("Configured tunnel: " ++ Name tunnel) ;; ret None
  end end end.

Definition setupGRETunnels : M (option error) :=
  cfg <- getConfig ;; forRange tunnelBody (GRETunnels cfg).

Definition staticBody (route : StaticRoute) : M (option error) :=
  e <- execCommand "ip"
         ["route"; "add"; Destination route; "via"; Gateway route] ;;
  match e with
  | Some err =>
      Printf ("Failed to add static route " ++ Destination route ++ " via "
              ++ Gateway route ++ ": " ++ err)
  | None =>
      Printf ("Added static route: " ++ Destination route ++ " via "
              ++ Gateway route)
  end ;;
  ret None.

Definition setupStaticRoutes : M (option error) :=
  cfg <- getConfig ;; forRange staticBody (StaticRoutes cfg).

Definition ecmpBody (ecmp : ECMPRoute) : M (option error) :=
  let args := ecmpArgs ecmp in
  e <- execCommand "ip" args ;;
  match e with
  | Some err =>
      Printf ("Failed to add ECMP route " ++ Route ecmp ++ ": " ++ err)
  | None => Printf ("Added ECMP route: " ++ GoStrings.Join args " ")
  end ;;
  ret None.

Definition setupECMPRoutes : M (option error) :=
  cfg <- getConfig ;; forRange ecmpBody (ECMPRoutes cfg).

Definition configFilePath : string := "/path/to/config.yml".

Definition pass : M unit :=
  reconcile setupGRETunnels setupStaticRoutes setupECMPRoutes.

Definition onWrite : string -> M unit :=
  onWrite setupGRETunnels setupStaticRoutes setupECMPRoutes.

Definition main : Watcher -> M Outcome :=
  main configFilePath setupGRETunnels setupStaticRoutes setupECMPRoutes.

End Program.
End Plain.

(** ** The program of [README.md], with existence probes *)

Module Probed.
Section Program.
Context {H : Host}.

Definition execCommand (command : string) (args : list string)
  : M (string * option error) :=
  runCommand command args.

Definition tunnelExists (name : string) : M bool :=
  r <- execCommand "ip" ["tunnel"; "show"] ;;
  ret (GoStrings.Contains (fst r) name).

(** The body of the loop of [setupGRETunnels]. *)
Definition tunnelBody (tunnel : Tunnel) : M (option error) :=
  ex <- tunnelExists (Name tunnel) ;;
  (if ex : bool then
     r <- execCommand "ip" ["tunnel"; "del"; Name tunnel] ;;
     logIfErr ("Failed to delete tunnel " ++ Name tunnel ++ ": ") (snd r)
   else ret tt) ;;
  r <- execCommand "ip"
         ["tunnel"; "add"; Name tunnel; "mode"; "gre"; "local";
          LocalIP tunnel; "remote"; RemoteIP tunnel] ;;
  match snd r with
  | Some err => ret (Some err)
  | None =>
  r <- execCommand "ip"
         ["addr"; "add";
          (TunnelIP tunnel ++ "/" ++ SubnetMask tunnel)%string; "dev";
          Name tunnel] ;;
  match snd r with
  | Some err => ret (Some err)
  | None =>
  r <- execCommand "ip" ["link"; "set"; Name tunnel; "up"] ;;
  match snd r with
  | Some err => ret (Some err)
  | None => Printf ("Configured tunnel: " ++ Name tunnel) ;; ret None
  end end end.

Definition setupGRETunnels : M (option error) :=
  cfg <- getConfig ;; forRange tunnelBody (GRETunnels cfg).

Definition routeExists (destination gateway : string) : M bool :=
  r <- execCommand "ip" ["route"; "show"] ;;
  ret (GoStrings.Contains (fst r) destination
       && GoStrings.Contains (fst r) gateway).

Definition staticBody (route : StaticRoute) : M (option error) :=
  ex <- routeExists (Destination route) (Gateway route) ;;
  (if negb ex then
     r <- execCommand "ip"
            ["route"; "add"; Destination route; "via"; Gateway route] ;;
     match snd r with
     | Some err =>
         Printf ("Failed to add static route " ++ Destination route
                 ++ " via " ++ Gateway route ++ ": " ++ err)
     | None =>
         Printf ("Added static route: " ++ Destination route ++ " via "
                 ++ Gateway route)
     end
   else ret tt) ;;
  ret None.

Definition setupStaticRoutes : M (option error) :=
  cfg <- getConfig ;; forRange staticBody (StaticRoutes cfg).

Definition ecmpRouteExists (route table : string) : M bool :=
  r <- execCommand "ip" ["route"; "show"; "table"; table] ;;
  ret (existsb (fun line => GoStrings.Contains line route)
         (GoStrings.Lines (fst r))).

Definition ecmpBody (ecmp : ECMPRoute) : M (option error) :=
  ex <- ecmpRouteExists (Route ecmp) (Table ecmp) ;;
  (if negb ex then
     let args := ecmpArgs ecmp in
     r <- execCommand "ip" args ;;
     match snd r with
     | Some err =>
         Printf ("Failed to add ECMP route " ++ Route ecmp ++ ": " ++ err)
     | None => Printf ("Added ECMP route: " ++ GoStrings.Join args " ")
     end
   else ret tt) ;;
  ret None.

Definition setupECMPRoutes : M (option error) :=
  cfg <- getConfig ;; forRange ecmpBody (ECMPRoutes cfg).

Definition configFilePath : string := "/etc/krouter/config.yml".

Definition pass : M unit :=
  reconcile setupGRETunnels setupStaticRoutes setupECMPRoutes.

Definition onWrite : string -> M unit :=
  onWrite setupGRETunnels setupStaticRoutes setupECMPRoutes.

Definition main : Watcher -> M Outcome :=
  main configFilePath setupGRETunnels setupStaticRoutes setupECMPRoutes.

End Program.
End Probed.

(** ** Vocabulary of the statements *)

(** [sub] occurs in [s]: some text before it, some text after it. *)
Definition occurs (sub s : string) : Prop :=
  exists before after, s = (before ++ sub ++ after)%string.

(** In a list of commands, every command that satisfies [p] comes before
    every command that satisfies [q]. *)
Definition precedes (p q : list string -> bool) (ops : list (list string))
  : Prop :=
  forall i j a b,
    nth_error ops i = Some a -> nth_error ops j = Some b ->
    p a = true -> q b = true -> i < j.

(** The requests made between two states of one run. *)
Definition since {H : Host} (st st' : State) : list Call :=
  skipn (List.length (calls st)) (calls st').

(** The captured output of an [ip] command in a given state of the host. *)
Definition stdout_of {H : Host} (st : State) (args : list string) : string :=
  fst (snd (os_run (os st) "ip" args)).

(** What a piece of the program leaves alone: the stored fingerprint and
    the configuration; and what it asks of the host: only requests that
    satisfy [p]. *)
Definition frame {H : Host} {A} (p : Call -> bool) (m : M A) : Prop :=
  forall st,
    currentHash (snd (m st)) = currentHash st /\
    config (snd (m st)) = config st /\
    exists tr, calls (snd (m st)) = calls st ++ tr /\ forallb p tr = true.

(** The requests of one phase: commands whose arguments satisfy [q]. *)
Definition inPhase (q : list string -> bool) (c : Call) : bool :=
  match c with
  | Exec _ args _ => q args
  | _ => false
  end.

(** The commands of a trace come in three runs: tunnel commands, then
    static-route commands, then ECMP commands. *)
Definition phased (tr : list Call) : Prop :=
  exists t s e,
    issued tr = t ++ s ++ e /\
    forallb isTunnelOp t = true /\
    forallb isStaticOp s = true /\
    forallb isECMPOp e = true.

(** The state of a watch pass once the new fingerprint is stored. *)
Definition hashed {H : Host} (st : State) (o : OS)
  (filePath newHash : string) : State :=
  mkState o (calls st ++ [ReadFile filePath None]) (logs st) newHash
    (config st).

(** The four commands of a tunnel. *)
Definition delArgs (t : Tunnel) : list string := ["tunnel"; "del"; Name t].

Definition addArgs (t : Tunnel) : list string :=
  ["tunnel"; "add"; Name t; "mode"; "gre"; "local"; LocalIP t; "remote";
   RemoteIP t].

Definition addrArgs (t : Tunnel) : list string :=
  ["addr"; "add"; (TunnelIP t ++ "/" ++ SubnetMask t)%string; "dev"; Name t].

Definition upArgs (t : Tunnel) : list string := ["link"; "set"; Name t; "up"].

Definition routeAddArgs (r : StaticRoute) : list string :=
  ["route"; "add"; Destination r; "via"; Gateway r].

(** ** A scripted host, to run the programs on concrete inputs

    Commands fail when their arguments are listed in [sim_failing] and
    print what [sim_stdout] gives for their arguments; successive reads
    of the configuration file return the successive entries of
    [sim_reads]; texts listed in the decoder table decode to the
    configuration beside them, any other text is a YAML error. *)
Record Sim := mkSim {
  sim_reads : list (string * option error);
  sim_failing : list (list string);
  sim_stdout : list (list string * string) }.

Fixpoint lookupArgs {A} (args : list string) (l : list (list string * A))
  : option A :=
  match l with
  | [] => None
  | (k, v) :: rest => if sameArgs args k then Some v else lookupArgs args rest
  end.

Definition sim_run (s : Sim) (command : string) (args : list string)
  : Sim * (string * option error) :=
  (s,
   (match lookupArgs args (sim_stdout s) with Some out => out | None => "" end,
    if existsb (sameArgs args) (sim_failing s)
    then Some "exit status 1" else None)).

Definition sim_readFile (s : Sim) (path : string)
  : Sim * (string * option error) :=
  match sim_reads s with
  | [] => (s, ("", Some "no such file or directory"))
  | r :: rest => (mkSim rest (sim_failing s) (sim_stdout s), r)
  end.

Fixpoint sim_decode (table : list (string * Config)) (data : string)
  (old : Config) : Config * option error :=
  match table with
  | [] => (old, Some "yaml: unmarshal errors")
  | (text, cfg) :: rest =>
      if String.eqb data text then (cfg, None) else sim_decode rest data old
  end.

Definition simHost (table : list (string * Config)) : Host :=
  {| OS := Sim;
     os_run := sim_run;
     os_readFile := sim_readFile;
     os_openFile := fun s _ => (s, None);
     yaml_Unmarshal := sim_decode table |}.

Definition noSettings : Settings := mkSettings "" (mkLogging false false false).

Definition gre1 : Tunnel := mkTunnel "gre1" "192.168.1.1" "10.0.0.1" "10.0.0.2" "30".
Definition gre2 : Tunnel := mkTunnel "gre2" "192.168.1.2" "10.0.0.2" "10.0.0.3" "30".
Definition route2 : StaticRoute := mkStaticRoute "192.168.2.0/24" "192.168.1.254".
Definition route3 : StaticRoute := mkStaticRoute "192.168.3.0/24" "192.168.1.254".
Definition ecmpDefault : ECMPRoute :=
  mkECMPRoute "default" "GRE"
    [mkNexthop "gre1" "10.0.40.5" 1; mkNexthop "gre2" "10.0.41.5" 1].

(** Two texts of 128 bytes with the same MD5 (Wang and Yu, 2004). *)
Definition collisionA : string :=
  MD5.DecodeString
    ("d131dd02c5e6eec4693d9a0698aff95c2fcab58712467eab4004583eb8fb7f89"
  ++ "55ad340609f4b30283e488832571415a085125e8f7cdc99fd91dbdf280373c5b"
  ++ "d8823e3156348f5bae6dacd436c919c6dd53e2b487da03fd02396306d248cda0"
  ++ "e99f33420f577ee8ce54b67080a80d1ec69821bcb6a8839396f9652b6ff72a70").

Definition collisionB : string :=
  MD5.DecodeString
    ("d131dd02c5e6eec4693d9a0698aff95c2fcab50712467eab4004583eb8fb7f89"
  ++ "55ad340609f4b30283e4888325f1415a085125e8f7cdc99fd91dbd7280373c5b"
  ++ "d8823e3156348f5bae6dacd436c919c6dd53e23487da03fd02396306d248cda0"
  ++ "e99f33420f577ee8ce54b67080280d1ec69821bcb6a8839396f965ab6ff72a70").

(** The example configuration of [README.md]. *)
Definition exampleConfig : Config :=
  mkConfig
    (mkSettings "/var/log/krouter/gre.log" (mkLogging true true false))
    [gre1; gre2] [route2; route3] [ecmpDefault].


Definition emptyConfig : Config := mkConfig noSettings [] [] [].

(** A host on which [gre1] cannot be added (nor deleted: it is not
    there), and a state configured with [gre1] and [gre2]. *)
Definition brokenAddSim : Sim := mkSim [] [delArgs gre1; addArgs gre1] [].

Definition brokenAddState : @State (simHost []) :=
  @mkState (simHost []) brokenAddSim [] [] ""
    (mkConfig noSettings [gre1; gre2] [] []).

(** A first run: there is no tunnel to delete, everything else works. *)
Definition firstRunSim : Sim := mkSim [] [delArgs gre1; delArgs gre2] [].

Definition firstRunState : @State (simHost []) :=
  @mkState (simHost []) firstRunSim [] [] ""
    (mkConfig noSettings [gre1; gre2] [] []).

(** The example configuration on that host. *)
Definition brokenExampleState : @State (simHost []) :=
  @mkState (simHost []) brokenAddSim [] [] "" exampleConfig.

(** A start-up on that host: the file decodes to the two tunnels. *)
Definition twoTunnels : Config := mkConfig noSettings [gre1; gre2] [] [].

Definition brokenStartState : @State (simHost [("tunnels", twoTunnels)]) :=
  @mkState (simHost [("tunnels", twoTunnels)])
    (mkSim [("tunnels", None); ("tunnels", None)]
       [delArgs gre1; addArgs gre1] [])
    [] [] "" emptyConfig.

Definition noWatcher : Watcher := mkWatcher None None [].



(** A route table of two lines: the destination of [route3] is on the
    second line, its gateway only on the first. *)
Definition routeShowCrossed : string :=
  "192.168.2.0/24 via 192.168.1.254 dev eth0 " ++ String GoStrings.LF
    ("192.168.3.0/24 via 10.0.0.9 dev eth1 " ++ String GoStrings.LF "").

Definition crossedState : @State (simHost []) :=
  @mkState (simHost []) (mkSim [] [] [(["route"; "show"], routeShowCrossed)])
    [] [] "" exampleConfig.

(** A host on which the three queries fail and print nothing. *)
Definition deadProbeState : @State (simHost []) :=
  @mkState (simHost [])
    (mkSim []
       [["tunnel"; "show"]; ["route"; "show"];
        ["route"; "show"; "table"; "GRE"]] [])
    [] [] "" exampleConfig.

(** A tunnel entry of the configuration file without a [name]. *)
Definition nameless : Tunnel :=
  mkTunnel "" "192.168.1.1" "10.0.0.1" "10.0.0.2" "30".

(** A file whose bytes go from [collisionA] to [collisionB] between two
    write events; the first text decodes to the example configuration. *)
Definition collisionState : @State (simHost [(collisionA, exampleConfig)]) :=
  @mkState (simHost [(collisionA, exampleConfig)])
    (mkSim [(collisionA, None); (collisionA, None); (collisionB, None)] [] [])
    [] [] "" emptyConfig.

(** A start-up with the example configuration on a host where
    everything works. *)
Definition exampleStartState : @State (simHost [("example", exampleConfig)]) :=
  @mkState (simHost [("example", exampleConfig)])
    (mkSim [("example", None); ("example", None)] [] [])
    [] [] "" emptyConfig.

(** A file that does not decode, read three times over, and a stored
    fingerprint that is not its own. *)
Definition unparsableState : @State (simHost []) :=
  @mkState (simHost [])
    (mkSim [("gre_tunnels: [", None); ("gre_tunnels: [", None);
            ("gre_tunnels: [", None)] [] [])
    [] [] "d41d8cd98f00b204e9800998ecf8427e" emptyConfig.

(** ** The writer behind the logger ([README.md])

    [initLogger] routes the logger through a [logWriter] that owns two
    loggers of its own, both created with an empty prefix and no flags:
    one on the standard output and one on the log file. *)

Inductive Stream := Stdout | LogFile.

(** The two devices: a write may fail, and changes the device. *)
Class Writers := {
  Device : Type;
  dev_write : Device -> Stream -> string -> Device * option error }.

Section LogWriter.
Context {W : Writers}.

(** The devices and what has been written to them, in order. *)
Record Sink := mkSink {
  device : Device;
  written : list (Stream * string) }.

Fixpoint endsWithLF (s : string) : bool :=
  match s with
  | EmptyString => false
  | String c EmptyString => Ascii.eqb c GoStrings.LF
  | String _ rest => endsWithLF rest
  end.

(** What [Output] hands to the writer of such a logger: the text, with a
    newline appended unless it already ends with one. *)
Definition logLine (s : string) : string :=
  if endsWithLF s then s else (s ++ String GoStrings.LF "")%string.

(** The method [Output] of a [log.Logger] with empty prefix and no
    flags. *)
Definition Logger_Output (to : Stream) (s : string) (k : Sink)
  : option error * Sink :=
  let '(d, err) := dev_write (device k) to (logLine s) in
  (err, mkSink d (written k ++ [(to, logLine s)])).

Record logWriter := mkLogWriter {
  infoEnabled : bool;
  errorEnabled : bool;
  debugEnabled : bool }.

(** [logWriter.Write]: the number of bytes reported and the error. *)
Definition logWriter_Write (l : logWriter) (p : string)
  (k : Sink) : (nat * option error) * Sink :=
  if infoEnabled l || errorEnabled l || debugEnabled l then
    let '(_, k1) := Logger_Output Stdout p k in
    let '(err, k2) := Logger_Output LogFile p k1 in
    ((String.length p, err), k2)
  else ((String.length p, None), k).

End LogWriter.

(** Devices for concrete runs: writes to the streams listed fail. *)
Definition simWriters (failing : list Stream) : Writers :=
  {| Device := unit;
     dev_write := fun d to _ =>
       (d,
        if existsb
             (fun x => match x, to with
                       | Stdout, Stdout | LogFile, LogFile => true
                       | _, _ => false
                       end) failing
        then Some "write error" else None) |}.

(** ** More vocabulary and fixtures *)

(** A digit of lower-case hexadecimal. *)
Definition isLowerHex (c : ascii) : bool :=
  existsb (Ascii.eqb c) (list_ascii_of_string "0123456789abcdef").

Definition isClose (m : Msg) : bool :=
  match m with
  | EventsClosed | ErrorsClosed => true
  | _ => false
  end.

(** The text of a route table with both static routes of the example. *)
Definition routeShowBoth : string :=
  "192.168.2.0/24 via 192.168.1.254 dev eth0 " ++ String GoStrings.LF
    ("192.168.3.0/24 via 192.168.1.254 dev eth0 " ++ String GoStrings.LF "").

(** A state with nothing configured. *)
Definition noTunnelState : @State (simHost []) :=
  @mkState (simHost []) brokenAddSim [] [] "" emptyConfig.

(** A host on which the configuration file cannot be read. *)
Definition noFileState : @State (simHost []) :=
  @mkState (simHost []) (mkSim [] [] []) [] []
    "d41d8cd98f00b204e9800998ecf8427e" exampleConfig.

(** A start-up during which the file changes: the load reads the two
    tunnels, the read for the fingerprint finds another text. *)
Definition driftStartState : @State (simHost [("tunnels", twoTunnels)]) :=
  @mkState (simHost [("tunnels", twoTunnels)])
    (mkSim [("tunnels", None); ("changed meanwhile", None)] [] [])
    [] [] "" emptyConfig.

(** The table [GRE] already holds a default route. *)
Definition ecmpPresentState : @State (simHost []) :=
  @mkState (simHost [])
    (mkSim [] []
       [(["route"; "show"; "table"; "GRE"],
         ("default proto static " ++ String GoStrings.LF "")%string)])
    [] [] "" exampleConfig.

(** The only tunnel of the host is [gre10]. *)
Definition gre10State : @State (simHost []) :=
  @mkState (simHost [])
    (mkSim [] []
       [(["tunnel"; "show"],
         ("gre10: gre/ip remote 10.0.0.9 local 192.168.1.1 ttl inherit "
          ++ String GoStrings.LF "")%string)])
    [] [] "" exampleConfig.

(** ** The turn of the tunnel loop, in the words of the statements

    [ed], [ea], [eb] and [ec] are what the host answers to the delete, the
    add, the address assignment and the link-up of a tunnel. *)

(** The create steps as far as they go: the add; the address assignment
    only after an add that succeeded; the link-up only after an address
    assignment that succeeded. *)
Definition createCalls (t : Tunnel) (ea eb ec : option error) : list Call :=
  Exec "ip" (addArgs t) ea ::
  match ea with
  | Some _ => []
  | None =>
      Exec "ip" (addrArgs t) eb ::
      match eb with
      | Some _ => []
      | None => [Exec "ip" (upArgs t) ec]
      end
  end.

(** A turn of [main.go]: the delete, whatever it answers, then the create
    steps. *)
Definition tunnelTurn (t : Tunnel) (ed ea eb ec : option error) : list Call :=
  Exec "ip" (delArgs t) ed :: createCalls t ea eb ec.

(** The error of the first create step that failed, if any. *)
Definition firstError (ea eb ec : option error) : option error :=
  match ea with
  | Some e => Some e
  | None => match eb with Some e => Some e | None => ec end
  end.

(** The line logged for a delete that failed. *)
Definition delLog (t : Tunnel) (ed : option error) : list string :=
  match ed with
  | Some e => [(("Failed to delete tunnel " ++ Name t ++ ": ") ++ e)%string]
  | None => []
  end.

(** The line logged for a tunnel whose create steps all succeeded. *)
Definition doneLog (t : Tunnel) (ea eb ec : option error) : list string :=
  match firstError ea eb ec with
  | Some _ => []
  | None => [("Configured tunnel: " ++ Name t)%string]
  end.

(** A route table that shows both static routes of the example. *)
Definition bothRoutesState : @State (simHost []) :=
  @mkState (simHost []) (mkSim [] [] [(["route"; "show"], routeShowBoth)])
    [] [] "" exampleConfig.

(** * Properties *)

Example md5_empty :
  MD5.EncodeToString (MD5.Sum "") = "d41d8cd98f00b204e9800998ecf8427e".
Proof. vm_compute. reflexivity. Qed.

Example md5_abc :
  MD5.EncodeToString (MD5.Sum "abc") = "900150983cd24fb0d6963f7d28e17f72".
Proof. vm_compute. reflexivity. Qed.

Example Itoa_examples :
  GoStrings.Itoa 0 = "0" /\ GoStrings.Itoa 1 = "1" /\
  GoStrings.Itoa 120 = "120" /\ GoStrings.Itoa (-7) = "-7".
Proof. repeat split; reflexivity. Qed.

Example md5_collision :
  collisionA <> collisionB /\
  String.length collisionA = 128 /\ String.length collisionB = 128 /\
  MD5.EncodeToString (MD5.Sum collisionA) = "79054025255fb1a26e4bc422aef54eb4" /\
  MD5.EncodeToString (MD5.Sum collisionB) = "79054025255fb1a26e4bc422aef54eb4".
Proof.
  split; [ | vm_compute; repeat split; reflexivity ].
  intro E. apply (f_equal (fun s => String.get 19 s)) in E.
  vm_compute in E. discriminate E.
Qed.

Example Lines_examples :
  GoStrings.Lines "" = [] /\
  GoStrings.Lines (String GoStrings.LF "") = [""] /\
  GoStrings.Lines ("a" ++ String GoStrings.CR (String GoStrings.LF "bc")) = ["a"; "bc"].
Proof. repeat split; reflexivity. Qed.

(** ** Strings *)

Lemma HasPrefix_iff (s p : string) :
  GoStrings.HasPrefix s p = true <-> exists rest, s = (p ++ rest)%string.
Proof.
  revert s. induction p as [|c p IH]; intros s; simpl.
  - split; [intros _; now exists s | intros _; now destruct s].
  - destruct s as [|d s]; simpl.
    + split; [discriminate | intros [rest E]; discriminate E].
    + rewrite andb_true_iff, Ascii.eqb_eq, IH. split.
      * intros [-> [rest ->]]. now exists rest.
      * intros [rest E]. injection E as -> ->. split; [reflexivity | now exists rest].
Qed.

Lemma Contains_iff (s sub : string) :
  GoStrings.Contains s sub = true <-> occurs sub s.
Proof.
  unfold occurs. induction s as [|d s IH].
  - destruct sub as [|c sub]; simpl.
    + split; [intros _; now exists "", "" | reflexivity].
    + split; [discriminate | intros [[|b before] [after E]]; discriminate E].
  - cbn [GoStrings.Contains]. rewrite orb_true_iff, HasPrefix_iff, IH. split.
    + intros [[rest E] | [before [after E]]].
      * exists "", rest. exact E.
      * exists (String d before), after. simpl. now rewrite E.
    + intros [[|b before] [after E]].
      * left. now exists after.
      * right. simpl in E. injection E as _ E. now exists before, after.
Qed.

Lemma Contains_empty_output (sub : string) :
  GoStrings.Contains "" sub = String.eqb sub "".
Proof. destruct sub; reflexivity. Qed.

(** ** Loops and traces *)

Section Facts.
Context {H : Host}.

Lemma skipn_length_app {A} (l tr : list A) :
  skipn (List.length l) (l ++ tr) = tr.
Proof. induction l; simpl; auto. Qed.

Lemma since_app (st st' : State) (tr : list Call) :
  calls st' = calls st ++ tr -> since st st' = tr.
Proof. unfold since. intros ->. apply skipn_length_app. Qed.

Lemma since_refl (st : State) : since st st = [].
Proof. apply since_app. now rewrite app_nil_r. Qed.

Lemma In_since (st st' : State) (c : Call) :
  In c (since st st') -> In c (calls st').
Proof.
  unfold since. intros Hin.
  rewrite <- (firstn_skipn (List.length (calls st)) (calls st')).
  apply in_or_app. now right.
Qed.

Lemma since_trans (st st1 st2 : State) (tr1 tr2 : list Call) :
  calls st1 = calls st ++ tr1 -> calls st2 = calls st1 ++ tr2 ->
  since st st2 = since st st1 ++ since st1 st2.
Proof.
  intros E1 E2. rewrite (since_app _ _ _ E1), (since_app _ _ _ E2).
  apply since_app. now rewrite E2, E1, app_assoc.
Qed.

Lemma issued_app (a b : list Call) : issued (a ++ b) = issued a ++ issued b.
Proof.
  induction a as [|[c args e|p e|p e] a IH]; simpl; now rewrite ?IH.
Qed.

Lemma reads_app (a b : list Call) : reads (a ++ b) = reads a ++ reads b.
Proof.
  induction a as [|[c args e|p e|p e] a IH]; simpl; now rewrite ?IH.
Qed.

Lemma forRange_app {A} (body : A -> M (option error)) (l1 l2 : list A)
  (st : State) :
  forRange body (l1 ++ l2) st =
  match forRange body l1 st with
  | (Some err, st') => (Some err, st')
  | (None, st') => forRange body l2 st'
  end.
Proof.
  revert st. induction l1 as [|x l1 IH]; intros st; simpl; [reflexivity|].
  unfold bind. destruct (body x st) as [[err|] st1]; [reflexivity | apply IH].
Qed.

Lemma forRange_cons {A} (body : A -> M (option error)) (x : A) (l : list A)
  (st : State) :
  forRange body (x :: l) st =
  match body x st with
  | (Some err, st') => (Some err, st')
  | (None, st') => forRange body l st'
  end.
Proof. simpl. unfold bind. now destruct (body x st) as [[err|] st1]. Qed.

(** A loop whose body never leaves the function returns [nil]. *)
Lemma forRange_nil_result {A} (body : A -> M (option error)) (l : list A) :
  (forall x st, fst (body x st) = None) ->
  forall st, fst (forRange body l st) = None.
Proof.
  intros Hb. induction l as [|x l IH]; intros st; [reflexivity|].
  rewrite forRange_cons. specialize (Hb x st).
  destruct (body x st) as [[err|] st1]; simpl in Hb; [discriminate | apply IH].
Qed.

Lemma frame_ret {A} p (x : A) : frame p (ret x).
Proof.
  intros st. simpl. repeat split. exists []. now rewrite app_nil_r.
Qed.

Lemma frame_bind {A B} p (m : M A) (k : A -> M B) :
  frame p m -> (forall x, frame p (k x)) -> frame p (bind m k).
Proof.
  intros Hm Hk st. unfold bind. specialize (Hm st).
  destruct (m st) as [x st1]. simpl in Hm.
  destruct Hm as (Hh & Hc & tr1 & Ht1 & Hp1).
  destruct (Hk x st1) as (Hh2 & Hc2 & tr2 & Ht2 & Hp2).
  rewrite Hh2, Hc2, Ht2, Hh, Hc, Ht1. repeat split.
  exists (tr1 ++ tr2). rewrite app_assoc, forallb_app, Hp1, Hp2. now split.
Qed.

Lemma frame_Printf p line : frame p (Printf line).
Proof.
  intros st. simpl. repeat split. exists []. now rewrite app_nil_r.
Qed.

Lemma frame_logIfErr p prefix r : frame p (logIfErr prefix r).
Proof. destruct r; [apply frame_Printf | apply frame_ret]. Qed.

Lemma frame_getConfig p : frame p getConfig.
Proof.
  intros st. simpl. repeat split. exists []. now rewrite app_nil_r.
Qed.

Lemma frame_runCommand (p : Call -> bool) command args :
  (forall err, p (Exec command args err) = true) ->
  frame p (runCommand command args).
Proof.
  intros Hp st. unfold runCommand.
  destruct (os_run (os st) command args) as [o [out err]]. simpl.
  repeat split. exists [Exec command args err]. simpl. now rewrite Hp.
Qed.

Lemma frame_forRange {A} p (body : A -> M (option error)) (l : list A) :
  (forall x, frame p (body x)) -> frame p (forRange body l).
Proof.
  intros Hb. induction l as [|x l IH]; simpl; [apply frame_ret|].
  apply frame_bind; [apply Hb|]. intros [err|]; [apply frame_ret | apply IH].
Qed.

Lemma inPhase_issued q (tr : list Call) :
  forallb (inPhase q) tr = true ->
  forallb q (issued tr) = true /\ reads tr = [].
Proof.
  induction tr as [|[c args e|pth e|pth e] tr IH]; simpl; try discriminate.
  - now split.
  - rewrite andb_true_iff. intros [Hq Hr]. destruct (IH Hr) as [-> ->].
    now rewrite Hq.
Qed.

End Facts.

Ltac frames :=
  repeat first
    [ apply frame_bind; [ | intros ? ]
    | apply frame_forRange; intros ?
    | apply frame_runCommand; intros ?; reflexivity
    | apply frame_logIfErr
    | apply frame_Printf
    | apply frame_getConfig
    | apply frame_ret
    | match goal with |- frame _ (match ?x with _ => _ end) => destruct x end
    | match goal with |- frame _ (if ?x then _ else _) => destruct x end ].

Ltac since_now :=
  cbn [fst snd os calls logs currentHash config];
  match goal with
  | |- since _ _ = _ => apply since_app; cbn [calls]
  | _ => idtac
  end;
  rewrite <- ?app_assoc; try reflexivity.

(** ** The watch loop and [main], for any three phases that stay in
    their lane *)

Section EngineFacts.
Context {H : Host}.
Variable configFilePath : string.
Variables setupGRETunnels setupStaticRoutes setupECMPRoutes
  : M (option error).
Hypothesis tunnels_frame : frame (inPhase isTunnelOp) setupGRETunnels.
Hypothesis static_frame : frame (inPhase isStaticOp) setupStaticRoutes.
Hypothesis ecmp_frame : frame (inPhase isECMPOp) setupECMPRoutes.

Local Abbreviation pass :=
  (reconcile setupGRETunnels setupStaticRoutes setupECMPRoutes).
Local Abbreviation handle :=
  (onWrite setupGRETunnels setupStaticRoutes setupECMPRoutes).
Local Abbreviation start :=
  (main configFilePath setupGRETunnels setupStaticRoutes setupECMPRoutes).

Lemma phased_parts (tr t s e : list Call) :
  issued tr = issued t ++ issued s ++ issued e ->
  forallb (inPhase isTunnelOp) t = true ->
  forallb (inPhase isStaticOp) s = true ->
  forallb (inPhase isECMPOp) e = true ->
  phased tr.
Proof.
  intros E Ht Hs He. exists (issued t), (issued s), (issued e).
  repeat split; [exact E | | | ]; now apply inPhase_issued.
Qed.

Lemma phased_nil : phased [].
Proof. now apply (phased_parts [] [] [] []). Qed.

(** A pass of the three phases: what it leaves alone and what it runs. *)
Lemma reconcile_trace (st : State) :
  currentHash (snd (pass st)) = currentHash st /\
  config (snd (pass st)) = config st /\
  exists t s e,
    calls (snd (pass st)) = calls st ++ t ++ s ++ e /\
    forallb (inPhase isTunnelOp) t = true /\
    forallb (inPhase isStaticOp) s = true /\
    forallb (inPhase isECMPOp) e = true.
Proof.
  unfold reconcile, bind.
  destruct (tunnels_frame st) as (Hh1 & Hc1 & t & Ht & Pt).
  destruct (setupGRETunnels st) as [r1 st1]. simpl in *.
  destruct (frame_logIfErr (fun _ => false) "Error setting up GRE tunnels: " r1 st1)
    as (Hh1' & Hc1' & l1 & Hl1 & Pl1).
  destruct (logIfErr _ r1 st1) as [[] st1']. simpl in *.
  destruct l1; [|discriminate]. rewrite app_nil_r in Hl1.
  destruct (static_frame st1') as (Hh2 & Hc2 & s & Hs & Ps).
  destruct (setupStaticRoutes st1') as [r2 st2]. simpl in *.
  destruct (frame_logIfErr (fun _ => false) "Error setting up static routes: " r2 st2)
    as (Hh2' & Hc2' & l2 & Hl2 & Pl2).
  destruct (logIfErr _ r2 st2) as [[] st2']. simpl in *.
  destruct l2; [|discriminate]. rewrite app_nil_r in Hl2.
  destruct (ecmp_frame st2') as (Hh3 & Hc3 & e & He & Pe).
  destruct (setupECMPRoutes st2') as [r3 st3]. simpl in *.
  destruct (frame_logIfErr (fun _ => false) "Error setting up ECMP routes: " r3 st3)
    as (Hh3' & Hc3' & l3 & Hl3 & Pl3).
  destruct (logIfErr _ r3 st3) as [[] st3']. simpl in *.
  destruct l3; [|discriminate]. rewrite app_nil_r in Hl3.
  repeat split; [congruence | congruence |].
  exists t, s, e. repeat split; try assumption.
  rewrite Hl3, He, Hl2, Hs, Hl1, Ht. now rewrite <- !app_assoc.
Qed.

(** [getFileMD5] reads the file once; the fingerprint is the hexadecimal
    MD5 of the bytes read. *)
Lemma getFileMD5_run (filePath : string) (st : State) :
  getFileMD5 filePath st =
  let '(o, (data, err)) := os_readFile (os st) filePath in
  (match err with
   | Some e => ("", Some e)
   | None => (MD5.EncodeToString (MD5.Sum data), None)
   end,
   mkState o (calls st ++ [ReadFile filePath err]) (logs st)
     (currentHash st) (config st)).
Proof.
  unfold getFileMD5, bind, ioReadFile.
  destruct (os_readFile (os st) filePath) as [o [data [e|]]]; reflexivity.
Qed.

(** [loadConfig] reads the file once and never touches the fingerprint. *)
Lemma loadConfig_trace (filePath : string) (st : State) :
  currentHash (snd (loadConfig filePath st)) = currentHash st /\
  exists err,
    calls (snd (loadConfig filePath st)) = calls st ++ [ReadFile filePath err].
Proof.
  unfold loadConfig, bind, ioReadFile, Unmarshal.
  destruct (os_readFile (os st) filePath) as [o [data [e|]]]; simpl.
  - split; [reflexivity | now exists (Some e)].
  - destruct (yaml_Unmarshal data (config st)) as [c err]. simpl.
    split; [reflexivity | now exists None].
Qed.

(** The three ways a write event is handled. *)
Lemma onWrite_unreadable filePath st o data e :
  os_readFile (os st) filePath = (o, (data, Some e)) ->
  handle filePath st =
  (tt, mkState o (calls st ++ [ReadFile filePath (Some e)])
         (logs st ++ [("Error reading file: " ++ e)%string])
         (currentHash st) (config st)).
Proof.
  intros E. unfold onWrite, bind.
  rewrite getFileMD5_run, E. reflexivity.
Qed.

Lemma onWrite_unchanged filePath st o data :
  os_readFile (os st) filePath = (o, (data, None)) ->
  MD5.EncodeToString (MD5.Sum data) = currentHash st ->
  handle filePath st =
  (tt, mkState o (calls st ++ [ReadFile filePath None]) (logs st)
         (currentHash st) (config st)).
Proof.
  intros E Eh. unfold onWrite, bind.
  rewrite getFileMD5_run, E. cbn [snd fst getCurrentHash currentHash].
  rewrite Eh, String.eqb_refl. reflexivity.
Qed.

Lemma onWrite_changed filePath st o data :
  os_readFile (os st) filePath = (o, (data, None)) ->
  MD5.EncodeToString (MD5.Sum data) <> currentHash st ->
  handle filePath st =
  match
    loadConfig filePath
      (hashed st o filePath (MD5.EncodeToString (MD5.Sum data)))
  with
  | (Some err, st2) => Printf ("Error loading config: " ++ err) st2
  | (None, st2) => pass st2
  end.
Proof.
  intros E Eh. unfold onWrite, bind.
  rewrite getFileMD5_run, E. cbn [snd fst getCurrentHash currentHash].
  apply String.eqb_neq in Eh. rewrite Eh.
  cbn [setCurrentHash os calls logs config]. unfold hashed.
  destruct (loadConfig filePath _) as [[err|] st2]; reflexivity.
Qed.

Lemma phased_since (st st' : State) (rd1 t s e rd2 : list Call) :
  calls st' = calls st ++ rd1 ++ t ++ s ++ e ++ rd2 ->
  issued rd1 = [] -> issued rd2 = [] ->
  forallb (inPhase isTunnelOp) t = true ->
  forallb (inPhase isStaticOp) s = true ->
  forallb (inPhase isECMPOp) e = true ->
  phased (since st st').
Proof.
  intros E H1 H2 Ht Hs He. rewrite (since_app _ _ _ E).
  apply (phased_parts _ t s e); try assumption.
  rewrite !issued_app, H1, H2. now rewrite app_nil_r.
Qed.

(** The fingerprint after a write event: that of the bytes hashed, as
    soon as they could be read, whatever the load does afterwards. *)
Lemma onWrite_hash (filePath : string) (st : State) :
  currentHash (snd (handle filePath st)) =
  match os_readFile (os st) filePath with
  | (_, (_, Some _)) => currentHash st
  | (_, (data, None)) => MD5.EncodeToString (MD5.Sum data)
  end.
Proof.
  destruct (os_readFile (os st) filePath) as [o [data [e|]]] eqn:E.
  - now rewrite (onWrite_unreadable _ _ _ _ _ E).
  - destruct (string_dec (MD5.EncodeToString (MD5.Sum data)) (currentHash st))
      as [Eh|Eh].
    + now rewrite (onWrite_unchanged _ _ _ _ E Eh).
    + rewrite (onWrite_changed _ _ _ _ E Eh).
      destruct (loadConfig_trace filePath
                  (hashed st o filePath (MD5.EncodeToString (MD5.Sum data))))
        as [Hh _].
      destruct (loadConfig filePath _) as [[err|] st2]; simpl in Hh.
      * simpl. exact Hh.
      * destruct (reconcile_trace st2) as (Hh2 & _). now rewrite Hh2.
Qed.

(** The commands of a watch pass come phase by phase. *)
Lemma onWrite_phased (filePath : string) (st : State) :
  phased (since st (snd (handle filePath st))).
Proof.
  destruct (os_readFile (os st) filePath) as [o [data [e|]]] eqn:E.
  - rewrite (onWrite_unreadable _ _ _ _ _ E).
    now apply (phased_since _ _ [ReadFile filePath (Some e)] [] [] [] []).
  - destruct (string_dec (MD5.EncodeToString (MD5.Sum data)) (currentHash st))
      as [Eh|Eh].
    + rewrite (onWrite_unchanged _ _ _ _ E Eh).
      now apply (phased_since _ _ [ReadFile filePath None] [] [] [] []).
    + rewrite (onWrite_changed _ _ _ _ E Eh).
      destruct (loadConfig_trace filePath
                  (hashed st o filePath (MD5.EncodeToString (MD5.Sum data))))
        as [_ [err2 Hc]].
      destruct (loadConfig filePath _) as [[err|] st2]; simpl in Hc.
      * apply (phased_since _ _
                 [ReadFile filePath None; ReadFile filePath err2] [] [] [] []);
          try reflexivity.
        simpl. rewrite Hc. now rewrite <- app_assoc.
      * destruct (reconcile_trace st2) as (_ & _ & t & s & e & Hr & Pt & Ps & Pe).
        apply (phased_since _ _
                 [ReadFile filePath None; ReadFile filePath err2] t s e []);
          try assumption; try reflexivity.
        rewrite Hr, Hc, app_nil_r. now rewrite <- !app_assoc.
Qed.

(** The commands of the start-up pass come phase by phase. *)
Lemma main_phased (newErr addErr : option error) (st : State) :
  phased (since st (snd (start (mkWatcher newErr addErr []) st))).
Proof.
  unfold main, bind.
  destruct (loadConfig_trace configFilePath st) as [_ [err1 Hc1]].
  destruct (loadConfig configFilePath st) as [[e1|] st1]; simpl in Hc1.
  { now apply (phased_since _ _ [ReadFile configFilePath err1] [] [] [] []). }
  cbn [getConfig]. unfold initLogger, osOpenFile.
  destruct (os_openFile (os st1) _) as [o2 e2] eqn:E2.
  set (rd := [ReadFile configFilePath err1;
              OpenFile (LogFilePath (ProgramSettings (config st1))) e2]).
  assert (Hc2 : calls st1 ++ [OpenFile (LogFilePath (ProgramSettings (config st1))) e2]
                = calls st ++ rd).
  { rewrite Hc1. subst rd. now rewrite <- app_assoc. }
  destruct e2 as [e2|].
  { apply (phased_since _ _ rd [] [] [] []); try reflexivity.
    simpl. rewrite Hc2. subst rd; simpl; rewrite <- ?app_assoc, ?app_nil_r; reflexivity. }
  match goal with |- context [setupGRETunnels ?x] => set (st2 := x) end.
  assert (Hc2' : calls st2 = calls st ++ rd) by exact Hc2.
  clearbody st2. clear Hc2.
  destruct (tunnels_frame st2) as (_ & _ & t & Ht & Pt).
  destruct (setupGRETunnels st2) as [[e3|] st3]; simpl in Ht.
  { apply (phased_since _ _ rd t [] [] []); try assumption; try reflexivity.
    simpl. rewrite Ht, Hc2'. subst rd; simpl; rewrite <- ?app_assoc, ?app_nil_r; reflexivity. }
  destruct (static_frame st3) as (_ & _ & s & Hs & Ps).
  destruct (setupStaticRoutes st3) as [[e4|] st4]; simpl in Hs.
  { apply (phased_since _ _ rd t s [] []); try assumption; try reflexivity.
    simpl. rewrite Hs, Ht, Hc2'. subst rd; simpl; rewrite <- ?app_assoc, ?app_nil_r; reflexivity. }
  destruct (ecmp_frame st4) as (_ & _ & e & He & Pe).
  destruct (setupECMPRoutes st4) as [[e5|] st5]; simpl in He.
  { apply (phased_since _ _ rd t s e []); try assumption; try reflexivity.
    simpl. rewrite He, Hs, Ht, Hc2'. subst rd; simpl; rewrite <- ?app_assoc, ?app_nil_r; reflexivity. }
  rewrite getFileMD5_run.
  destruct (os_readFile (os st5) configFilePath) as [o6 [data [e6|]]].
  { apply (phased_since _ _ rd t s e [ReadFile configFilePath (Some e6)]);
      try assumption; try reflexivity.
    simpl. rewrite He, Hs, Ht, Hc2'. subst rd; simpl; rewrite <- ?app_assoc, ?app_nil_r; reflexivity. }
  assert (Hfin : forall st', calls st' = calls st5 ++ [ReadFile configFilePath None] ->
                 phased (since st st')).
  { intros st' E.
    apply (phased_since _ _ rd t s e [ReadFile configFilePath None]);
      try assumption; try reflexivity.
    rewrite E, He, Hs, Ht, Hc2'. subst rd; simpl; rewrite <- ?app_assoc, ?app_nil_r; reflexivity. }
  cbn [snd fst setCurrentHash]. unfold watchConfigFile. cbn [NewWatcher_err Add_err deliveries].
  destruct newErr as [ne|]; [apply Hfin; reflexivity|].
  destruct addErr as [ae|]; apply Hfin; reflexivity.
Qed.

(** Where [main] can stop, when the two route phases always return
    [nil]. *)
Hypothesis static_nil : forall st, fst (setupStaticRoutes st) = None.
Hypothesis ecmp_nil : forall st, fst (setupECMPRoutes st) = None.

Lemma main_fatal_site (w : Watcher) (st : State) (site : FatalSite)
  (e : error) :
  fst (start w st) = Fatal site e ->
  site <> AtStaticRoutes /\ site <> AtECMPRoutes /\
  (site = AtTunnels ->
   exists st2,
     fst (setupGRETunnels st2) = Some e /\
     calls (snd (start w st)) = calls (snd (setupGRETunnels st2))).
Proof.
  unfold main, bind.
  destruct (loadConfig configFilePath st) as [[e1|] st1].
  { simpl. intros [= <- _]. repeat split; discriminate. }
  cbn [getConfig].
  destruct (initLogger _ st1) as [[e2|] st2].
  { simpl. intros [= <- _]. repeat split; discriminate. }
  destruct (setupGRETunnels st2) as [[e3|] st3] eqn:E3.
  { simpl. intros [= <- <-]. repeat split; try discriminate.
    intros _. exists st2. now rewrite E3. }
  pose proof (static_nil st3) as N4.
  destruct (setupStaticRoutes st3) as [[e4|] st4]; [discriminate N4|].
  pose proof (ecmp_nil st4) as N5.
  destruct (setupECMPRoutes st4) as [[e5|] st5]; [discriminate N5|].
  rewrite getFileMD5_run.
  destruct (os_readFile (os st5) configFilePath) as [o6 [data [e6|]]].
  { simpl. intros [= <- _]. repeat split; discriminate. }
  cbn [snd fst setCurrentHash]. unfold watchConfigFile.
  destruct (NewWatcher_err w) as [ne|].
  { simpl. intros [= <- _]. repeat split; discriminate. }
  destruct (Add_err w) as [ae|].
  { simpl. intros [= <- _]. repeat split; discriminate. }
  unfold bind. destruct (watchLoop _ _ _) as [[] stw]. simpl. discriminate.
Qed.

End EngineFacts.

(** ** The phases of [main.go] *)

Section PlainFacts.
Context {H : Host}.

Lemma plain_frame_tunnelBody t : frame (inPhase isTunnelOp) (Plain.tunnelBody t).
Proof. unfold Plain.tunnelBody, Plain.execCommand. frames. Qed.

Lemma plain_frame_setupGRETunnels :
  frame (inPhase isTunnelOp) Plain.setupGRETunnels.
Proof.
  unfold Plain.setupGRETunnels. frames.
Qed.

Lemma plain_frame_setupStaticRoutes :
  frame (inPhase isStaticOp) Plain.setupStaticRoutes.
Proof.
  unfold Plain.setupStaticRoutes, Plain.staticBody, Plain.execCommand.
  frames.
Qed.

Lemma plain_frame_setupECMPRoutes :
  frame (inPhase isECMPOp) Plain.setupECMPRoutes.
Proof.
  unfold Plain.setupECMPRoutes, Plain.ecmpBody, Plain.execCommand.
  frames.
Qed.


(** What one turn of the tunnel loop runs: the delete, the add, and
    then the address assignment and the link-up as far as the step before
    succeeded. *)
Lemma plain_tunnelBody_cases (t : Tunnel) (st : State) :
  let r := Plain.tunnelBody t st in
  exists ed,
    (exists e, fst r = Some e /\
       since st (snd r) =
       [Exec "ip" (delArgs t) ed; Exec "ip" (addArgs t) (Some e)]) \/
    (exists e, fst r = Some e /\
       since st (snd r) =
       [Exec "ip" (delArgs t) ed; Exec "ip" (addArgs t) None;
        Exec "ip" (addrArgs t) (Some e)]) \/
    (exists e, fst r = Some e /\
       since st (snd r) =
       [Exec "ip" (delArgs t) ed; Exec "ip" (addArgs t) None;
        Exec "ip" (addrArgs t) None; Exec "ip" (upArgs t) (Some e)]) \/
    (fst r = None /\
       since st (snd r) =
       [Exec "ip" (delArgs t) ed; Exec "ip" (addArgs t) None;
        Exec "ip" (addrArgs t) None; Exec "ip" (upArgs t) None]).
Proof.
  unfold Plain.tunnelBody, Plain.execCommand, bind, runCommand, ret.
  fold (delArgs t) (addArgs t) (addrArgs t) (upArgs t).
  destruct (os_run (os st) "ip" (delArgs t)) as [o1 [out1 ed]].
  exists ed. cbn [snd].
  assert (Hlog : forall pre,
            os (snd (logIfErr pre ed
               (mkState o1 (calls st ++ [Exec "ip" (delArgs t) ed]) (logs st)
                  (currentHash st) (config st)))) = o1 /\
            calls (snd (logIfErr pre ed
               (mkState o1 (calls st ++ [Exec "ip" (delArgs t) ed]) (logs st)
                  (currentHash st) (config st)))) =
            calls st ++ [Exec "ip" (delArgs t) ed]).
  { intros pre. destruct ed; simpl; now split. }
  specialize (Hlog ("Failed to delete tunnel " ++ Name t ++ ": ")%string).
  destruct (logIfErr _ ed _) as [[] st1]. cbn [snd] in Hlog.
  destruct Hlog as [Ho Hc]. rewrite Ho.
  destruct (os_run o1 "ip" (addArgs t)) as [o2 [out2 [e2|]]];
    cbn [fst snd os calls].
  { left. exists e2. split; [reflexivity|]. since_now. now rewrite Hc, <- app_assoc. }
  destruct (os_run o2 "ip" (addrArgs t)) as [o3 [out3 [e3|]]];
    cbn [fst snd os calls].
  { right; left. exists e3. split; [reflexivity|]. since_now.
    now rewrite Hc, <- !app_assoc. }
  destruct (os_run o3 "ip" (upArgs t)) as [o4 [out4 [e4|]]];
    cbn [fst snd os calls].
  { right; right; left. exists e4. split; [reflexivity|]. since_now.
    now rewrite Hc, <- !app_assoc. }
  right; right; right. split; [reflexivity|]. since_now.
  now rewrite Hc, <- !app_assoc.
Qed.

Lemma plain_delete_is_no_create_step (t : Tunnel) :
  isCreateStep t (delArgs t) = false.
Proof. reflexivity. Qed.

Lemma plain_create_steps (t : Tunnel) :
  isCreateStep t (addArgs t) = true /\
  isCreateStep t (addrArgs t) = true /\
  isCreateStep t (upArgs t) = true.
Proof.
  assert (R : forall l, sameArgs l l = true).
  { induction l; simpl; [reflexivity | now rewrite String.eqb_refl]. }
  unfold isCreateStep, addArgs, addrArgs, upArgs.
  fold (addArgs t) (addrArgs t) (upArgs t).
  rewrite !R. rewrite !orb_true_r. auto.
Qed.

(** A turn of the tunnel loop leaves [setupGRETunnels] with an error
    exactly when one of its create steps failed, and with that error. *)
Lemma plain_tunnelBody_fails_iff (t : Tunnel) (st : State) (e : error) :
  fst (Plain.tunnelBody t st) = Some e <->
  exists args,
    In (Exec "ip" args (Some e)) (since st (snd (Plain.tunnelBody t st))) /\
    isCreateStep t args = true.
Proof.
  destruct (plain_create_steps t) as (Ca & Cb & Cc).
  destruct (plain_tunnelBody_cases t st) as [ed Hcases]. cbv zeta in Hcases.
  assert (Hdel : forall args e',
            Exec "ip" (delArgs t) ed = Exec "ip" args (Some e') ->
            isCreateStep t args = true -> False).
  { intros args e' E Hs. injection E as <- _. now rewrite plain_delete_is_no_create_step in Hs. }
  destruct Hcases as [[e' [Hr Hs]] | [[e' [Hr Hs]] | [[e' [Hr Hs]] | [Hr Hs]]]];
    rewrite Hr, Hs; split.
  - intros [= ->]. exists (addArgs t). split; [simpl; auto | exact Ca].
  - intros [args [[E|[E|[]]] Hc]]; [exfalso; eapply Hdel; eauto|].
    now injection E as _ ->.
  - intros [= ->]. exists (addrArgs t). split; [simpl; auto | exact Cb].
  - intros [args [[E|[E|[E|[]]]] Hc]]; [exfalso; eapply Hdel; eauto | discriminate E |].
    now injection E as _ ->.
  - intros [= ->]. exists (upArgs t). split; [simpl; auto | exact Cc].
  - intros [args [[E|[E|[E|[E|[]]]]] Hc]];
      [exfalso; eapply Hdel; eauto | discriminate E | discriminate E |].
    now injection E as _ ->.
  - discriminate.
  - intros [args [[E|[E|[E|[E|[]]]]] Hc]];
      [exfalso; eapply Hdel; eauto | discriminate E .. ].
Qed.

(** A failed tunnel phase has a failed create step behind it. *)
Lemma plain_tunnel_loop_error (l : list Tunnel) (st st' : State) (e : error) :
  forRange Plain.tunnelBody l st = (Some e, st') ->
  exists t args,
    In t l /\ isCreateStep t args = true /\
    In (Exec "ip" args (Some e)) (since st st').
Proof.
  revert st. induction l as [|x l IH]; intros st; [discriminate|].
  rewrite forRange_cons.
  destruct (plain_frame_tunnelBody x st) as (_ & _ & tr1 & Hc1 & _).
  destruct (Plain.tunnelBody x st) as [[e1|] st1] eqn:Eb; simpl in Hc1.
  - intros [= <- <-].
    destruct (proj1 (plain_tunnelBody_fails_iff x st e1)) as [args [Hin Hs]].
    { now rewrite Eb. }
    rewrite Eb in Hin. exists x, args. simpl. auto.
  - intros El. destruct (IH _ El) as (t & args & Hin & Hs & Hc).
    destruct (frame_forRange (inPhase isTunnelOp) Plain.tunnelBody l
                plain_frame_tunnelBody st1) as (_ & _ & tr2 & Hc2 & _).
    rewrite El in Hc2. simpl in Hc2.
    exists t, args. repeat split; [now right | exact Hs |].
    rewrite (since_trans _ _ _ _ _ Hc1 Hc2). apply in_or_app. now right.
Qed.


Lemma plain_staticBody_nil (r : StaticRoute) (st : State) :
  fst (Plain.staticBody r st) = None.
Proof.
  unfold Plain.staticBody, bind.
  destruct (Plain.execCommand _ _ st) as [[e|] st1];
    now destruct (Printf _ st1).
Qed.

Lemma plain_ecmpBody_nil (e : ECMPRoute) (st : State) :
  fst (Plain.ecmpBody e st) = None.
Proof.
  unfold Plain.ecmpBody, bind.
  destruct (Plain.execCommand _ _ st) as [[err|] st1];
    now destruct (Printf _ st1).
Qed.

Lemma plain_setupStaticRoutes_nil (st : State) :
  fst (Plain.setupStaticRoutes st) = None.
Proof.
  unfold Plain.setupStaticRoutes, bind, getConfig.
  apply forRange_nil_result, plain_staticBody_nil.
Qed.

Lemma plain_setupECMPRoutes_nil (st : State) :
  fst (Plain.setupECMPRoutes st) = None.
Proof.
  unfold Plain.setupECMPRoutes, bind, getConfig.
  apply forRange_nil_result, plain_ecmpBody_nil.
Qed.

(** One turn of the ECMP loop runs one command. *)
Lemma plain_ecmpBody_trace (e : ECMPRoute) (st : State) :
  exists err,
    since st (snd (Plain.ecmpBody e st)) = [Exec "ip" (ecmpArgs e) err].
Proof.
  unfold Plain.ecmpBody, Plain.execCommand, bind, runCommand, ret.
  destruct (os_run (os st) "ip" (ecmpArgs e)) as [o [out [err|]]];
    [exists (Some err) | exists None]; now apply since_app.
Qed.

Lemma plain_ecmp_loop_trace (l : list ECMPRoute) (st : State) :
  issued (since st (snd (forRange Plain.ecmpBody l st))) = map ecmpArgs l.
Proof.
  revert st. induction l as [|x l IH]; intros st.
  - simpl. now rewrite since_refl.
  - rewrite forRange_cons.
    assert (Hf : forall x, frame (inPhase isECMPOp) (Plain.ecmpBody x)).
    { intros y. unfold Plain.ecmpBody, Plain.execCommand. frames. }
    destruct (Hf x st) as (_ & _ & tr1 & Hc1 & _).
    destruct (plain_ecmpBody_trace x st) as [err Ht].
    pose proof (plain_ecmpBody_nil x st) as Hn.
    destruct (Plain.ecmpBody x st) as [[e1|] st1]; [discriminate|].
    simpl in Hc1, Ht.
    destruct (frame_forRange _ _ l Hf st1) as (_ & _ & tr2 & Hc2 & _).
    rewrite (since_trans _ _ _ _ _ Hc1 Hc2), issued_app, IH, Ht.
    reflexivity.
Qed.

(** The loop over a configuration whose first tunnels were all set up. *)
Lemma plain_tunnel_loop_split (st st1 : State) (pre post : list Tunnel)
  (t : Tunnel) :
  GRETunnels (config st) = pre ++ t :: post ->
  forRange Plain.tunnelBody pre st = (None, st1) ->
  Plain.setupGRETunnels st =
  match Plain.tunnelBody t st1 with
  | (Some err, st2) => (Some err, st2)
  | (None, st2) => forRange Plain.tunnelBody post st2
  end.
Proof.
  intros Hcfg Hpre. unfold Plain.setupGRETunnels, bind, getConfig.
  now rewrite Hcfg, forRange_app, Hpre, forRange_cons.
Qed.

(** From a tunnel that the loop reaches on: delete and add in any case,
    then address and link-up as far as the steps succeed. *)
Lemma plain_reached_tunnel (st st1 : State) (pre post : list Tunnel) (t : Tunnel) :
  GRETunnels (config st) = pre ++ t :: post ->
  forRange Plain.tunnelBody pre st = (None, st1) ->
  exists k rest,
    2 <= k <= 4 /\
    issued (since st1 (snd (Plain.setupGRETunnels st))) =
      firstn k [delArgs t; addArgs t; addrArgs t; upArgs t] ++ rest /\
    (k < 4 -> rest = []).
Proof.
  intros Hcfg Hpre. rewrite (plain_tunnel_loop_split _ _ _ _ _ Hcfg Hpre).
  destruct (plain_frame_tunnelBody t st1) as (_ & _ & tr1 & Hc1 & _).
  destruct (plain_tunnelBody_cases t st1) as [ed Hcases]. cbv zeta in Hcases.
  destruct (Plain.tunnelBody t st1) as [r st2]. simpl in Hc1, Hcases.
  destruct Hcases as [[e' [-> Hs]] | [[e' [-> Hs]] | [[e' [-> Hs]] | [-> Hs]]]].
  - exists 2, []. simpl. rewrite Hs. repeat split; lia.
  - exists 3, []. simpl. rewrite Hs. repeat split; lia.
  - exists 4, []. simpl. rewrite Hs. repeat split; lia.
  - destruct (frame_forRange (inPhase isTunnelOp) Plain.tunnelBody post
                plain_frame_tunnelBody st2) as (_ & _ & tr2 & Hc2 & _).
    exists 4, (issued (since st2 (snd (forRange Plain.tunnelBody post st2)))).
    rewrite (since_trans _ _ _ _ _ Hc1 Hc2), issued_app, Hs.
    repeat split; lia.
Qed.

(** One turn of the static-route loop runs the route-add, whatever the
    kernel already holds. *)
Lemma plain_staticBody_trace (r : StaticRoute) (st : State) :
  exists err,
    since st (snd (Plain.staticBody r st)) = [Exec "ip" (routeAddArgs r) err].
Proof.
  unfold Plain.staticBody, Plain.execCommand, bind, runCommand, ret.
  fold (routeAddArgs r).
  destruct (os_run (os st) "ip" (routeAddArgs r)) as [o [out [err|]]];
    [exists (Some err) | exists None]; now apply since_app.
Qed.

Lemma plain_static_loop_trace (l : list StaticRoute) (st : State) :
  issued (since st (snd (forRange Plain.staticBody l st))) =
  map routeAddArgs l.
Proof.
  revert st. induction l as [|x l IH]; intros st.
  - simpl. now rewrite since_refl.
  - rewrite forRange_cons.
    assert (Hf : forall x, frame (inPhase isStaticOp) (Plain.staticBody x)).
    { intros y. unfold Plain.staticBody, Plain.execCommand. frames. }
    destruct (Hf x st) as (_ & _ & tr1 & Hc1 & _).
    destruct (plain_staticBody_trace x st) as [err Ht].
    pose proof (plain_staticBody_nil x st) as Hn.
    destruct (Plain.staticBody x st) as [[e1|] st1]; [discriminate|].
    simpl in Hc1, Ht.
    destruct (frame_forRange _ _ l Hf st1) as (_ & _ & tr2 & Hc2 & _).
    rewrite (since_trans _ _ _ _ _ Hc1 Hc2), issued_app, IH, Ht.
    reflexivity.
Qed.

(** [main.go] has no probe: its static-route phase runs the route-add of
    every static route of the configuration. *)
Lemma plain_static_routes_always_added (st : State) :
  issued (since st (snd (Plain.setupStaticRoutes st))) =
  map routeAddArgs (StaticRoutes (config st)).
Proof.
  unfold Plain.setupStaticRoutes, bind, getConfig.
  apply plain_static_loop_trace.
Qed.

End PlainFacts.

(** ** The phases of the program of [README.md] *)

Section ProbedFacts.
Context {H : Host}.

(** The probes look at the captured output and at nothing else. *)
Lemma probed_tunnelExists_run (name : string) (st : State) :
  fst (Probed.tunnelExists name st) =
  GoStrings.Contains (stdout_of st ["tunnel"; "show"]) name.
Proof.
  unfold Probed.tunnelExists, Probed.execCommand, bind, runCommand, stdout_of.
  now destruct (os_run (os st) "ip" ["tunnel"; "show"]) as [o [out err]].
Qed.

Lemma probed_routeExists_run (destination gateway : string) (st : State) :
  fst (Probed.routeExists destination gateway st) =
  GoStrings.Contains (stdout_of st ["route"; "show"]) destination
  && GoStrings.Contains (stdout_of st ["route"; "show"]) gateway.
Proof.
  unfold Probed.routeExists, Probed.execCommand, bind, runCommand, stdout_of.
  now destruct (os_run (os st) "ip" ["route"; "show"]) as [o [out err]].
Qed.

Lemma probed_ecmpRouteExists_run (route table : string) (st : State) :
  fst (Probed.ecmpRouteExists route table st) =
  existsb (fun line => GoStrings.Contains line route)
    (GoStrings.Lines (stdout_of st ["route"; "show"; "table"; table])).
Proof.
  unfold Probed.ecmpRouteExists, Probed.execCommand, bind, runCommand,
    stdout_of.
  now destruct (os_run (os st) "ip" ["route"; "show"; "table"; table])
    as [o [out err]].
Qed.

Lemma probed_frame_tunnelBody t : frame (inPhase isTunnelOp) (Probed.tunnelBody t).
Proof.
  unfold Probed.tunnelBody, Probed.tunnelExists, Probed.execCommand. frames.
Qed.

Lemma probed_frame_staticBody r : frame (inPhase isStaticOp) (Probed.staticBody r).
Proof.
  unfold Probed.staticBody, Probed.routeExists, Probed.execCommand. frames.
Qed.

Lemma probed_frame_ecmpBody e : frame (inPhase isECMPOp) (Probed.ecmpBody e).
Proof.
  unfold Probed.ecmpBody, Probed.ecmpRouteExists, Probed.execCommand. frames.
Qed.

Lemma probed_frame_setupGRETunnels :
  frame (inPhase isTunnelOp) Probed.setupGRETunnels.
Proof.
  unfold Probed.setupGRETunnels.
  apply frame_bind; [apply frame_getConfig | intros cfg].
  apply frame_forRange, probed_frame_tunnelBody.
Qed.

Lemma probed_frame_setupStaticRoutes :
  frame (inPhase isStaticOp) Probed.setupStaticRoutes.
Proof.
  unfold Probed.setupStaticRoutes.
  apply frame_bind; [apply frame_getConfig | intros cfg].
  apply frame_forRange, probed_frame_staticBody.
Qed.

Lemma probed_frame_setupECMPRoutes :
  frame (inPhase isECMPOp) Probed.setupECMPRoutes.
Proof.
  unfold Probed.setupECMPRoutes.
  apply frame_bind; [apply frame_getConfig | intros cfg].
  apply frame_forRange, probed_frame_ecmpBody.
Qed.

(** One turn of the static-route loop: the probe, then the add when the
    probe said no; the turn never leaves the function. *)
Lemma probed_staticBody_trace (r : StaticRoute) (st : State) :
  fst (Probed.staticBody r st) = None /\
  issued (since st (snd (Probed.staticBody r st))) =
  ["route"; "show"] ::
  (if fst (Probed.routeExists (Destination r) (Gateway r) st)
   then [] else [routeAddArgs r]).
Proof.
  unfold Probed.staticBody, Probed.routeExists, Probed.execCommand, bind,
    runCommand, ret.
  destruct (os_run (os st) "ip" ["route"; "show"]) as [o1 [out1 e1]].
  cbn [fst snd os calls].
  destruct (GoStrings.Contains out1 (Destination r)
            && GoStrings.Contains out1 (Gateway r)); cbn [negb fst snd].
  - split; [reflexivity|]. now rewrite (since_app _ _ [Exec "ip" ["route"; "show"] e1]).
  - fold (routeAddArgs r). cbn [os calls].
    destruct (os_run o1 "ip" (routeAddArgs r)) as [o2 [out2 [e2|]]];
      cbn [fst snd Printf calls]; (split; [reflexivity|]).
    + now rewrite (since_app _ _ [Exec "ip" ["route"; "show"] e1;
                                  Exec "ip" (routeAddArgs r) (Some e2)])
        by now rewrite <- app_assoc.
    + now rewrite (since_app _ _ [Exec "ip" ["route"; "show"] e1;
                                  Exec "ip" (routeAddArgs r) None])
        by now rewrite <- app_assoc.
Qed.

(** One turn of the ECMP loop, likewise. *)
Lemma probed_ecmpBody_trace (e : ECMPRoute) (st : State) :
  fst (Probed.ecmpBody e st) = None /\
  issued (since st (snd (Probed.ecmpBody e st))) =
  ["route"; "show"; "table"; Table e] ::
  (if fst (Probed.ecmpRouteExists (Route e) (Table e) st)
   then [] else [ecmpArgs e]).
Proof.
  unfold Probed.ecmpBody, Probed.ecmpRouteExists, Probed.execCommand, bind,
    runCommand, ret.
  destruct (os_run (os st) "ip" ["route"; "show"; "table"; Table e])
    as [o1 [out1 e1]].
  cbn [fst snd os calls].
  destruct (existsb _ _); cbn [negb fst snd].
  - split; [reflexivity|].
    now rewrite (since_app _ _ [Exec "ip" ["route"; "show"; "table"; Table e] e1]).
  - cbn [os calls].
    destruct (os_run o1 "ip" (ecmpArgs e)) as [o2 [out2 [e2|]]];
      cbn [fst snd Printf calls]; (split; [reflexivity|]).
    + now rewrite (since_app _ _ [Exec "ip" ["route"; "show"; "table"; Table e] e1;
                                  Exec "ip" (ecmpArgs e) (Some e2)])
        by now rewrite <- app_assoc.
    + now rewrite (since_app _ _ [Exec "ip" ["route"; "show"; "table"; Table e] e1;
                                  Exec "ip" (ecmpArgs e) None])
        by now rewrite <- app_assoc.
Qed.

Lemma probed_setupStaticRoutes_nil (st : State) :
  fst (Probed.setupStaticRoutes st) = None.
Proof.
  unfold Probed.setupStaticRoutes, bind, getConfig.
  apply forRange_nil_result. intros r st'. apply probed_staticBody_trace.
Qed.

Lemma probed_setupECMPRoutes_nil (st : State) :
  fst (Probed.setupECMPRoutes st) = None.
Proof.
  unfold Probed.setupECMPRoutes, bind, getConfig.
  apply forRange_nil_result. intros r st'. apply probed_ecmpBody_trace.
Qed.

Ltac tunnel_tail t :=
  match goal with
  | |- context [os_run ?o "ip" (addArgs t)] =>
      destruct (os_run o "ip" (addArgs t)) as [? [? [?|]]];
      cbn [fst snd os calls]
  end;
  [ left; eexists; split; [reflexivity | since_now] | ];
  match goal with
  | |- context [os_run ?o "ip" (addrArgs t)] =>
      destruct (os_run o "ip" (addrArgs t)) as [? [? [?|]]];
      cbn [fst snd os calls]
  end;
  [ right; left; eexists; split; [reflexivity | since_now] | ];
  match goal with
  | |- context [os_run ?o "ip" (upArgs t)] =>
      destruct (os_run o "ip" (upArgs t)) as [? [? [?|]]];
      cbn [fst snd os calls]
  end;
  [ right; right; left; eexists; split; [reflexivity | since_now]
  | right; right; right; split; [reflexivity | since_now] ].

(** What one turn of the tunnel loop runs: the probe, the delete when
    the probe said yes, the add, and then the address assignment and the
    link-up as far as the step before succeeded. *)
Lemma probed_tunnelBody_cases (t : Tunnel) (st : State) :
  let r := Probed.tunnelBody t st in
  exists pre,
    issued pre =
      ["tunnel"; "show"] ::
      (if fst (Probed.tunnelExists (Name t) st) then [delArgs t] else []) /\
    (forall c, In c pre ->
       exists args e, c = Exec "ip" args e /\ isCreateStep t args = false) /\
    ((exists e, fst r = Some e /\
        since st (snd r) = pre ++ [Exec "ip" (addArgs t) (Some e)]) \/
     (exists e, fst r = Some e /\
        since st (snd r) =
        pre ++ [Exec "ip" (addArgs t) None; Exec "ip" (addrArgs t) (Some e)]) \/
     (exists e, fst r = Some e /\
        since st (snd r) =
        pre ++ [Exec "ip" (addArgs t) None; Exec "ip" (addrArgs t) None;
                Exec "ip" (upArgs t) (Some e)]) \/
     (fst r = None /\
        since st (snd r) =
        pre ++ [Exec "ip" (addArgs t) None; Exec "ip" (addrArgs t) None;
                Exec "ip" (upArgs t) None])).
Proof.
  cbv zeta. rewrite probed_tunnelExists_run. unfold stdout_of.
  unfold Probed.tunnelBody, Probed.tunnelExists, Probed.execCommand, bind,
    runCommand, ret.
  fold (delArgs t) (addArgs t) (addrArgs t) (upArgs t).
  destruct (os_run (os st) "ip" ["tunnel"; "show"]) as [o0 [out0 es]].
  cbn [fst snd os calls].
  destruct (GoStrings.Contains out0 (Name t)).
  - cbn [fst snd os calls logs currentHash config].
    match goal with
    | |- context [os_run ?o "ip" (delArgs t)] =>
        destruct (os_run o "ip" (delArgs t)) as [o1 [out1 ed]]
    end.
    cbn [fst snd os calls logs currentHash config].
    exists [Exec "ip" ["tunnel"; "show"] es; Exec "ip" (delArgs t) ed].
    split; [reflexivity|]. split; [intros c [<-|[<-|[]]]; eauto|].
    destruct ed as [ed|]; cbn [logIfErr Printf ret fst snd os calls];
      tunnel_tail t.
  - exists [Exec "ip" ["tunnel"; "show"] es].
    split; [reflexivity|]. split; [intros c [<-|[]]; eauto|].
    tunnel_tail t.
Qed.

Lemma probed_tunnelBody_fails_iff (t : Tunnel) (st : State) (e : error) :
  fst (Probed.tunnelBody t st) = Some e <->
  exists args,
    In (Exec "ip" args (Some e)) (since st (snd (Probed.tunnelBody t st))) /\
    isCreateStep t args = true.
Proof.
  destruct (plain_create_steps t) as (Ca & Cb & Cc).
  destruct (probed_tunnelBody_cases t st) as (pre & _ & Hp & Hcases).
  cbv zeta in Hcases.
  assert (Hpre : forall args e',
            In (Exec "ip" args (Some e')) pre ->
            isCreateStep t args = true -> False).
  { intros args e' Hin Hs. destruct (Hp _ Hin) as (a & x & [= <- _] & Hf).
    congruence. }
  destruct Hcases as [[e' [Hr Hs]] | [[e' [Hr Hs]] | [[e' [Hr Hs]] | [Hr Hs]]]];
    rewrite Hr, Hs; split.
  - intros [= ->]. exists (addArgs t). split; [|exact Ca].
    apply in_or_app. right. simpl. auto.
  - intros [args [Hin Hc]]. apply in_app_or in Hin.
    destruct Hin as [Hin|[E|[]]]; [exfalso; eapply Hpre; eauto|].
    now injection E as _ ->.
  - intros [= ->]. exists (addrArgs t). split; [|exact Cb].
    apply in_or_app. right. simpl. auto.
  - intros [args [Hin Hc]]. apply in_app_or in Hin.
    destruct Hin as [Hin|[E|[E|[]]]];
      [exfalso; eapply Hpre; eauto | discriminate E |].
    now injection E as _ ->.
  - intros [= ->]. exists (upArgs t). split; [|exact Cc].
    apply in_or_app. right. simpl. auto.
  - intros [args [Hin Hc]]. apply in_app_or in Hin.
    destruct Hin as [Hin|[E|[E|[E|[]]]]];
      [exfalso; eapply Hpre; eauto | discriminate E | discriminate E |].
    now injection E as _ ->.
  - discriminate.
  - intros [args [Hin Hc]]. apply in_app_or in Hin.
    destruct Hin as [Hin|[E|[E|[E|[]]]]];
      [exfalso; eapply Hpre; eauto | discriminate E .. ].
Qed.

Lemma probed_tunnel_loop_error (l : list Tunnel) (st st' : State) (e : error) :
  forRange Probed.tunnelBody l st = (Some e, st') ->
  exists t args,
    In t l /\ isCreateStep t args = true /\
    In (Exec "ip" args (Some e)) (since st st').
Proof.
  revert st. induction l as [|x l IH]; intros st; [discriminate|].
  rewrite forRange_cons.
  destruct (probed_frame_tunnelBody x st) as (_ & _ & tr1 & Hc1 & _).
  destruct (Probed.tunnelBody x st) as [[e1|] st1] eqn:Eb; simpl in Hc1.
  - intros [= <- <-].
    destruct (proj1 (probed_tunnelBody_fails_iff x st e1)) as [args [Hin Hs]].
    { now rewrite Eb. }
    rewrite Eb in Hin. exists x, args. simpl. auto.
  - intros El. destruct (IH _ El) as (t & args & Hin & Hs & Hc).
    destruct (frame_forRange (inPhase isTunnelOp) Probed.tunnelBody l
                probed_frame_tunnelBody st1) as (_ & _ & tr2 & Hc2 & _).
    rewrite El in Hc2. simpl in Hc2.
    exists t, args. repeat split; [now right | exact Hs |].
    rewrite (since_trans _ _ _ _ _ Hc1 Hc2). apply in_or_app. now right.
Qed.

Lemma probed_tunnel_loop_split (st st1 : State) (pre post : list Tunnel)
  (t : Tunnel) :
  GRETunnels (config st) = pre ++ t :: post ->
  forRange Probed.tunnelBody pre st = (None, st1) ->
  Probed.setupGRETunnels st =
  match Probed.tunnelBody t st1 with
  | (Some err, st2) => (Some err, st2)
  | (None, st2) => forRange Probed.tunnelBody post st2
  end.
Proof.
  intros Hcfg Hpre. unfold Probed.setupGRETunnels, bind, getConfig.
  now rewrite Hcfg, forRange_app, Hpre, forRange_cons.
Qed.

(** From a tunnel that the loop reaches on: the probe, the delete when
    the probe said yes, the add in any case, then address and link-up as
    far as the steps succeed. *)
Lemma probed_reached_tunnel (st st1 : State) (pre post : list Tunnel) (t : Tunnel) :
  GRETunnels (config st) = pre ++ t :: post ->
  forRange Probed.tunnelBody pre st = (None, st1) ->
  exists k rest,
    1 <= k <= 3 /\
    issued (since st1 (snd (Probed.setupGRETunnels st))) =
      (["tunnel"; "show"] ::
       (if fst (Probed.tunnelExists (Name t) st1) then [delArgs t] else []))
      ++ firstn k [addArgs t; addrArgs t; upArgs t] ++ rest /\
    (k < 3 -> rest = []).
Proof.
  intros Hcfg Hpre. rewrite (probed_tunnel_loop_split _ _ _ _ _ Hcfg Hpre).
  destruct (probed_frame_tunnelBody t st1) as (_ & _ & tr1 & Hc1 & _).
  destruct (probed_tunnelBody_cases t st1) as (p & Hi & _ & Hcases).
  cbv zeta in Hcases. rewrite <- Hi.
  destruct (Probed.tunnelBody t st1) as [r st2]. simpl in Hc1, Hcases.
  destruct Hcases as [[e' [-> Hs]] | [[e' [-> Hs]] | [[e' [-> Hs]] | [-> Hs]]]].
  - exists 1, []. cbn [snd]. rewrite Hs, issued_app. repeat split; lia.
  - exists 2, []. cbn [snd]. rewrite Hs, issued_app. repeat split; lia.
  - exists 3, []. cbn [snd]. rewrite Hs, issued_app. repeat split; lia.
  - destruct (frame_forRange (inPhase isTunnelOp) Probed.tunnelBody post
                probed_frame_tunnelBody st2) as (_ & _ & tr2 & Hc2 & _).
    exists 3, (issued (since st2 (snd (forRange Probed.tunnelBody post st2)))).
    rewrite (since_trans _ _ _ _ _ Hc1 Hc2), !issued_app, Hs, issued_app.
    cbn [firstn issued app]. rewrite <- app_assoc.
    repeat split; lia.
Qed.

End ProbedFacts.

(** ** One turn of the tunnel loop, from what the host answers *)

Section TunnelTurns.
Context {H : Host}.

Ltac tidy_state :=
  unfold tunnelTurn, createCalls, doneLog, firstError, delLog;
  cbn [fst snd os calls logs currentHash config logIfErr Printf ret];
  rewrite <- ?app_assoc; cbn [app]; rewrite ?app_nil_r; reflexivity.

(** [main.go]: the result is the error of the first create step that
    failed; the commands are the delete and the create steps up to that
    one; a failed delete is logged, a tunnel set up is logged; the
    fingerprint and the configuration stay. *)
Lemma plain_tunnel_turn (t : Tunnel) (st : State) :
  let rd := os_run (os st) "ip" (delArgs t) in
  let ra := os_run (fst rd) "ip" (addArgs t) in
  let rb := os_run (fst ra) "ip" (addrArgs t) in
  let rc := os_run (fst rb) "ip" (upArgs t) in
  let ed := snd (snd rd) in
  let ea := snd (snd ra) in
  let eb := snd (snd rb) in
  let ec := snd (snd rc) in
  Plain.tunnelBody t st =
  (firstError ea eb ec,
   mkState
     (match ea with
      | Some _ => fst ra
      | None => match eb with Some _ => fst rb | None => fst rc end
      end)
     (calls st ++ tunnelTurn t ed ea eb ec)
     (logs st ++ delLog t ed ++ doneLog t ea eb ec)
     (currentHash st) (config st)).
Proof.
  cbv zeta.
  unfold Plain.tunnelBody, Plain.execCommand, bind, runCommand, ret.
  fold (delArgs t) (addArgs t) (addrArgs t) (upArgs t).
  destruct (os_run (os st) "ip" (delArgs t)) as [o1 [out1 ed]].
  cbn [fst snd os calls logs currentHash config].
  destruct ed as [ed|]; cbn [logIfErr Printf ret fst snd os calls logs
                             currentHash config];
    (destruct (os_run o1 "ip" (addArgs t)) as [o2 [out2 [ea|]]];
     cbn [fst snd os calls logs currentHash config]; [tidy_state|];
     destruct (os_run o2 "ip" (addrArgs t)) as [o3 [out3 [eb|]]];
     cbn [fst snd os calls logs currentHash config]; [tidy_state|];
     destruct (os_run o3 "ip" (upArgs t)) as [o4 [out4 [ec|]]];
     cbn [fst snd os calls logs currentHash config]; tidy_state).
Qed.

(** The program of [README.md]: the same after the probe, with the
    delete run, and its failure logged, only when the probe said yes. *)
Lemma probed_tunnel_turn (t : Tunnel) (st : State) :
  let rs := os_run (os st) "ip" ["tunnel"; "show"] in
  let present := GoStrings.Contains (fst (snd rs)) (Name t) in
  let rd := os_run (fst rs) "ip" (delArgs t) in
  let o1 := if present then fst rd else fst rs in
  let ra := os_run o1 "ip" (addArgs t) in
  let rb := os_run (fst ra) "ip" (addrArgs t) in
  let rc := os_run (fst rb) "ip" (upArgs t) in
  let es := snd (snd rs) in
  let ed := snd (snd rd) in
  let ea := snd (snd ra) in
  let eb := snd (snd rb) in
  let ec := snd (snd rc) in
  Probed.tunnelBody t st =
  (firstError ea eb ec,
   mkState
     (match ea with
      | Some _ => fst ra
      | None => match eb with Some _ => fst rb | None => fst rc end
      end)
     (calls st ++
      Exec "ip" ["tunnel"; "show"] es ::
      (if present then [Exec "ip" (delArgs t) ed] else [])
      ++ createCalls t ea eb ec)
     (logs st ++ (if present then delLog t ed else [])
      ++ doneLog t ea eb ec)
     (currentHash st) (config st)).
Proof.
  cbv zeta.
  unfold Probed.tunnelBody, Probed.tunnelExists, Probed.execCommand, bind,
    runCommand, ret.
  fold (delArgs t) (addArgs t) (addrArgs t) (upArgs t).
  destruct (os_run (os st) "ip" ["tunnel"; "show"]) as [o0 [out0 es]].
  cbn [fst snd os calls logs currentHash config].
  destruct (GoStrings.Contains out0 (Name t));
    cbn [fst snd os calls logs currentHash config].
  - destruct (os_run o0 "ip" (delArgs t)) as [o1 [out1 ed]].
    cbn [fst snd os calls logs currentHash config].
    destruct ed as [ed|]; cbn [logIfErr Printf ret fst snd os calls logs
                               currentHash config];
      (destruct (os_run o1 "ip" (addArgs t)) as [o2 [out2 [ea|]]];
       cbn [fst snd os calls logs currentHash config]; [tidy_state|];
       destruct (os_run o2 "ip" (addrArgs t)) as [o3 [out3 [eb|]]];
       cbn [fst snd os calls logs currentHash config]; [tidy_state|];
       destruct (os_run o3 "ip" (upArgs t)) as [o4 [out4 [ec|]]];
       cbn [fst snd os calls logs currentHash config]; tidy_state).
  - cbn [ret fst snd os calls logs currentHash config].
    destruct (os_run o0 "ip" (addArgs t)) as [o2 [out2 [ea|]]];
      cbn [fst snd os calls logs currentHash config]; [tidy_state|];
      destruct (os_run o2 "ip" (addrArgs t)) as [o3 [out3 [eb|]]];
      cbn [fst snd os calls logs currentHash config]; [tidy_state|];
      destruct (os_run o3 "ip" (upArgs t)) as [o4 [out4 [ec|]]];
      cbn [fst snd os calls logs currentHash config]; tidy_state.
Qed.

End TunnelTurns.

(** * The claims *)

(** ** Tunnel phase *)

(** C1, as amended.  In both programs, when the add, the address
    assignment or the link-up of a tunnel fails, [setupGRETunnels]
    returns that error on the spot: the failed command is the last command
    of the pass, so nothing more is run for that tunnel and nothing for
    the tunnels after it.  A delete that fails is logged and does not end
    the loop: when the three create steps succeed, the loop goes on with
    the next tunnel whatever the delete answered.  [st1] is the state in
    which the loop reaches the tunnel; the answers of the host to the
    commands of the tunnel are read off the host itself. *)
Theorem tunnel_create_failure_ends_phase :
  (forall (H : Host) (st st1 : State) (pre post : list Tunnel) (t : Tunnel),
     GRETunnels (config st) = pre ++ t :: post ->
     forRange Plain.tunnelBody pre st = (None, st1) ->
     let rd := os_run (os st1) "ip" (delArgs t) in
     let ra := os_run (fst rd) "ip" (addArgs t) in
     let rb := os_run (fst ra) "ip" (addrArgs t) in
     let rc := os_run (fst rb) "ip" (upArgs t) in
     let ed := snd (snd rd) in
     let ea := snd (snd ra) in
     let eb := snd (snd rb) in
     let ec := snd (snd rc) in
     let after :=
       mkState
         (match ea with
          | Some _ => fst ra
          | None => match eb with Some _ => fst rb | None => fst rc end
          end)
         (calls st1 ++ tunnelTurn t ed ea eb ec)
         (logs st1 ++ delLog t ed ++ doneLog t ea eb ec)
         (currentHash st1) (config st1) in
     match firstError ea eb ec with
     | Some e => Plain.setupGRETunnels st = (Some e, after)
     | None => Plain.setupGRETunnels st = forRange Plain.tunnelBody post after
     end) /\
  (forall (H : Host) (st st1 : State) (pre post : list Tunnel) (t : Tunnel),
     GRETunnels (config st) = pre ++ t :: post ->
     forRange Probed.tunnelBody pre st = (None, st1) ->
     let rs := os_run (os st1) "ip" ["tunnel"; "show"] in
     let present := GoStrings.Contains (fst (snd rs)) (Name t) in
     let rd := os_run (fst rs) "ip" (delArgs t) in
     let o1 := if present then fst rd else fst rs in
     let ra := os_run o1 "ip" (addArgs t) in
     let rb := os_run (fst ra) "ip" (addrArgs t) in
     let rc := os_run (fst rb) "ip" (upArgs t) in
     let es := snd (snd rs) in
     let ed := snd (snd rd) in
     let ea := snd (snd ra) in
     let eb := snd (snd rb) in
     let ec := snd (snd rc) in
     let after :=
       mkState
         (match ea with
          | Some _ => fst ra
          | None => match eb with Some _ => fst rb | None => fst rc end
          end)
         (calls st1 ++
          Exec "ip" ["tunnel"; "show"] es ::
          (if present then [Exec "ip" (delArgs t) ed] else [])
          ++ createCalls t ea eb ec)
         (logs st1 ++ (if present then delLog t ed else [])
          ++ doneLog t ea eb ec)
         (currentHash st1) (config st1) in
     match firstError ea eb ec with
     | Some e => Probed.setupGRETunnels st = (Some e, after)
     | None =>
         Probed.setupGRETunnels st = forRange Probed.tunnelBody post after
     end).
Proof.
  split.
  - intros H st st1 pre post t Hcfg Hpre. cbv zeta.
    rewrite (plain_tunnel_loop_split _ _ _ _ _ Hcfg Hpre).
    pose proof (plain_tunnel_turn t st1) as T. cbv zeta in T. rewrite T.
    now destruct (firstError _ _ _).
  - intros H st st1 pre post t Hcfg Hpre. cbv zeta.
    rewrite (probed_tunnel_loop_split _ _ _ _ _ Hcfg Hpre).
    pose proof (probed_tunnel_turn t st1) as T. cbv zeta in T. rewrite T.
    now destruct (firstError _ _ _).
Qed.

(** The same holds in the program of [README.md]. *)
Lemma probed_tunnel_create_failure_ends_phase {H : Host} (st st1 : State)
  (pre post : list Tunnel) (t : Tunnel) (args : list string) (e : error) :
  GRETunnels (config st) = pre ++ t :: post ->
  forRange Probed.tunnelBody pre st = (None, st1) ->
  In (Exec "ip" args (Some e)) (since st1 (snd (Probed.tunnelBody t st1))) ->
  isCreateStep t args = true ->
  Probed.setupGRETunnels st = (Some e, snd (Probed.tunnelBody t st1)).
Proof.
  intros Hcfg Hpre Hin Hs.
  rewrite (probed_tunnel_loop_split _ _ _ _ _ Hcfg Hpre).
  assert (Hf : fst (Probed.tunnelBody t st1) = Some e).
  { apply probed_tunnelBody_fails_iff. now exists args. }
  destruct (Probed.tunnelBody t st1) as [r s2]. simpl in Hf. now subst r.
Qed.

(** C1, counterexample.  With tunnels [gre1] and [gre2] and a host on
    which the add of [gre1] fails, the phase stops after that add: no
    command at all is run for [gre2]. *)
Lemma tunnel_failure_skips_later_tunnels :
  fst (Plain.setupGRETunnels brokenAddState) = Some "exit status 1" /\
  issued (calls (snd (Plain.setupGRETunnels brokenAddState))) =
    [delArgs gre1; addArgs gre1] /\
  ~ In (addArgs gre2) (issued (calls (snd (Plain.setupGRETunnels brokenAddState)))).
Proof.
  vm_compute. repeat split. intros [E|[E|[]]]; discriminate E.
Qed.

Lemma tunnel_create_failure_ends_phase_witness :
  Plain.setupGRETunnels brokenAddState =
    (Some "exit status 1",
     @mkState (simHost []) brokenAddSim
       [Exec "ip" (delArgs gre1) (Some "exit status 1");
        Exec "ip" (addArgs gre1) (Some "exit status 1")]
       ["Failed to delete tunnel gre1: exit status 1"] ""
       (mkConfig noSettings [gre1; gre2] [] [])) /\
  Plain.setupGRETunnels firstRunState =
    forRange Plain.tunnelBody [gre2]
      (@mkState (simHost []) firstRunSim
         [Exec "ip" (delArgs gre1) (Some "exit status 1");
          Exec "ip" (addArgs gre1) None; Exec "ip" (addrArgs gre1) None;
          Exec "ip" (upArgs gre1) None]
         ["Failed to delete tunnel gre1: exit status 1";
          "Configured tunnel: gre1"] ""
         (mkConfig noSettings [gre1; gre2] [] [])) /\
  Probed.setupGRETunnels brokenAddState =
    (Some "exit status 1",
     @mkState (simHost []) brokenAddSim
       [Exec "ip" ["tunnel"; "show"] None;
        Exec "ip" (addArgs gre1) (Some "exit status 1")]
       [] "" (mkConfig noSettings [gre1; gre2] [] [])).
Proof.
  destruct tunnel_create_failure_ends_phase as [P Q].
  split; [|split].
  - exact (P (simHost []) brokenAddState brokenAddState [] [gre2] gre1
             eq_refl eq_refl).
  - exact (P (simHost []) firstRunState firstRunState [] [gre2] gre1
             eq_refl eq_refl).
  - exact (Q (simHost []) brokenAddState brokenAddState [] [gre2] gre1
             eq_refl eq_refl).
Defined.




(** ** Route phases never fail a pass *)

(** C8.  In both programs [setupStaticRoutes] and [setupECMPRoutes]
    return [nil] in every state, whatever the host answers to their
    commands; so [main] never stops at the fatal exits that follow them,
    and when it stops at the fatal exit of the tunnel phase, or the tunnel
    phase returns an error at all, a create step of a configured tunnel
    (add, address assignment or link-up) has failed with that error. *)
Theorem route_phases_never_fail :
  (forall (H : Host) (st : State),
     fst (Plain.setupStaticRoutes st) = None /\
     fst (Plain.setupECMPRoutes st) = None /\
     fst (Probed.setupStaticRoutes st) = None /\
     fst (Probed.setupECMPRoutes st) = None) /\
  (forall (H : Host) (w : Watcher) (st : State) (e : error),
     fst (Plain.main w st) <> Fatal AtStaticRoutes e /\
     fst (Plain.main w st) <> Fatal AtECMPRoutes e /\
     fst (Probed.main w st) <> Fatal AtStaticRoutes e /\
     fst (Probed.main w st) <> Fatal AtECMPRoutes e) /\
  (forall (H : Host) (st : State) (e : error),
     (fst (Plain.setupGRETunnels st) = Some e ->
      exists t args,
        In t (GRETunnels (config st)) /\ isCreateStep t args = true /\
        In (Exec "ip" args (Some e))
          (since st (snd (Plain.setupGRETunnels st)))) /\
     (fst (Probed.setupGRETunnels st) = Some e ->
      exists t args,
        In t (GRETunnels (config st)) /\ isCreateStep t args = true /\
        In (Exec "ip" args (Some e))
          (since st (snd (Probed.setupGRETunnels st))))) /\
  (forall (H : Host) (w : Watcher) (st : State) (e : error),
     (fst (Plain.main w st) = Fatal AtTunnels e ->
      exists t args,
        isCreateStep t args = true /\
        In (Exec "ip" args (Some e)) (calls (snd (Plain.main w st)))) /\
     (fst (Probed.main w st) = Fatal AtTunnels e ->
      exists t args,
        isCreateStep t args = true /\
        In (Exec "ip" args (Some e)) (calls (snd (Probed.main w st))))).
Proof.
  assert (P : forall (H : Host) (st : State) (e : error),
            fst (Plain.setupGRETunnels st) = Some e ->
            exists t args,
              In t (GRETunnels (config st)) /\ isCreateStep t args = true /\
              In (Exec "ip" args (Some e))
                (since st (snd (Plain.setupGRETunnels st)))).
  { intros H st e. unfold Plain.setupGRETunnels, bind, getConfig.
    destruct (forRange Plain.tunnelBody (GRETunnels (config st)) st)
      as [r st'] eqn:E.
    simpl. intros ->. now apply plain_tunnel_loop_error. }
  assert (Q : forall (H : Host) (st : State) (e : error),
            fst (Probed.setupGRETunnels st) = Some e ->
            exists t args,
              In t (GRETunnels (config st)) /\ isCreateStep t args = true /\
              In (Exec "ip" args (Some e))
                (since st (snd (Probed.setupGRETunnels st)))).
  { intros H st e. unfold Probed.setupGRETunnels, bind, getConfig.
    destruct (forRange Probed.tunnelBody (GRETunnels (config st)) st)
      as [r st'] eqn:E.
    simpl. intros ->. now apply probed_tunnel_loop_error. }
  split; [|split; [|split]].
  - intros H st. repeat split.
    + apply plain_setupStaticRoutes_nil.
    + apply plain_setupECMPRoutes_nil.
    + apply probed_setupStaticRoutes_nil.
    + apply probed_setupECMPRoutes_nil.
  - intros H w st e. repeat split; intros E.
    + destruct (main_fatal_site Plain.configFilePath _ _ _
                  plain_setupStaticRoutes_nil
                  plain_setupECMPRoutes_nil w st _ _ E) as (N & _).
      now apply N.
    + destruct (main_fatal_site Plain.configFilePath _ _ _
                  plain_setupStaticRoutes_nil
                  plain_setupECMPRoutes_nil w st _ _ E) as (_ & N & _).
      now apply N.
    + destruct (main_fatal_site Probed.configFilePath _ _ _
                  probed_setupStaticRoutes_nil
                  probed_setupECMPRoutes_nil w st _ _ E) as (N & _).
      now apply N.
    + destruct (main_fatal_site Probed.configFilePath _ _ _
                  probed_setupStaticRoutes_nil
                  probed_setupECMPRoutes_nil w st _ _ E) as (_ & N & _).
      now apply N.
  - intros H st e. split; [apply P | apply Q].
  - intros H w st e. split; intros E.
    + destruct (main_fatal_site Plain.configFilePath _ _ _
                  plain_setupStaticRoutes_nil
                  plain_setupECMPRoutes_nil w st _ _ E) as (_ & _ & T).
      destruct (T eq_refl) as (st2 & Hf & Hc).
      destruct (P _ _ _ Hf) as (t & args & _ & Hs & Hin).
      exists t, args. split; [exact Hs|].
      unfold Plain.main. rewrite Hc. now apply In_since in Hin.
    + destruct (main_fatal_site Probed.configFilePath _ _ _
                  probed_setupStaticRoutes_nil
                  probed_setupECMPRoutes_nil w st _ _ E) as (_ & _ & T).
      destruct (T eq_refl) as (st2 & Hf & Hc).
      destruct (Q _ _ _ Hf) as (t & args & _ & Hs & Hin).
      exists t, args. split; [exact Hs|].
      unfold Probed.main. rewrite Hc. now apply In_since in Hin.
Qed.

Lemma route_phases_never_fail_witness :
  (exists t args,
     In t [gre1; gre2] /\ isCreateStep t args = true /\
     In (Exec "ip" args (Some "exit status 1"))
       (since brokenAddState (snd (Plain.setupGRETunnels brokenAddState)))) /\
  (exists t args,
     isCreateStep t args = true /\
     In (Exec "ip" args (Some "exit status 1"))
       (calls (snd (Plain.main noWatcher brokenStartState)))).
Proof.
  destruct route_phases_never_fail as (_ & _ & A & B). split.
  - exact (proj1 (A (simHost []) brokenAddState "exit status 1") eq_refl).
  - exact (proj1 (B (simHost [("tunnels", twoTunnels)]) noWatcher
                    brokenStartState "exit status 1") eq_refl).
Defined.

(** ** Change detection *)

(** C2, as amended.  On a write event [main.go] stores the new
    fingerprint before it loads the file: whenever the file could be read
    for hashing, the stored fingerprint after the pass is the MD5 of the
    bytes read, whether the load that follows succeeds or fails (when the
    file could not be read, it is the old one).  A later write event that
    finds the same bytes is therefore a no-op, also after a failed load:
    one read, no load, state unchanged. *)
Theorem fingerprint_stored_before_load {H : Host} (filePath : string)
  (st : State) :
  let st' := snd (Plain.onWrite filePath st) in
  currentHash st' =
    match os_readFile (os st) filePath with
    | (_, (_, Some _)) => currentHash st
    | (_, (data, None)) => MD5.EncodeToString (MD5.Sum data)
    end /\
  (forall o1 o2 data,
     os_readFile (os st) filePath = (o1, (data, None)) ->
     os_readFile (os st') filePath = (o2, (data, None)) ->
     Plain.onWrite filePath st' =
     (tt, mkState o2 (calls st' ++ [ReadFile filePath None]) (logs st')
            (currentHash st') (config st'))).
Proof.
  intros st'.
  assert (Hh := onWrite_hash _ _ _ plain_frame_setupGRETunnels
                  plain_frame_setupStaticRoutes
                  plain_frame_setupECMPRoutes filePath st).
  fold (@Plain.onWrite H) in Hh. fold st' in Hh.
  split; [exact Hh|].
  intros o1 o2 data E1 E2. rewrite E1 in Hh.
  apply (onWrite_unchanged _ _ _ _ _ _ _ E2). now rewrite Hh.
Qed.

(** C2, counterexample.  The file does not decode, so the load fails and
    is logged; all the same the stored fingerprint has changed, and the
    next write event with the same bytes reads the file once to hash it
    and does not try to load it. *)
Lemma failed_load_still_moves_fingerprint :
  let st1 := snd (Plain.onWrite "/path/to/config.yml" unparsableState) in
  logs st1 = ["Error loading config: yaml: unmarshal errors"] /\
  currentHash st1 <> currentHash unparsableState /\
  since st1 (snd (Plain.onWrite "/path/to/config.yml" st1)) =
    [ReadFile "/path/to/config.yml" None].
Proof.
  vm_compute. repeat split. discriminate.
Qed.

Lemma fingerprint_stored_before_load_witness :
  let st' := snd (Plain.onWrite "/path/to/config.yml" unparsableState) in
  logs st' = ["Error loading config: yaml: unmarshal errors"] /\
  Plain.onWrite "/path/to/config.yml" st' =
  (tt, @mkState (simHost []) (mkSim [] [] [])
         (calls st' ++ [ReadFile "/path/to/config.yml" None]) (logs st')
         (currentHash st') (config st')).
Proof.
  split; [reflexivity|].
  exact (proj2 (@fingerprint_stored_before_load (simHost [])
                  "/path/to/config.yml" unparsableState)
           (mkSim [("gre_tunnels: [", None); ("gre_tunnels: [", None)] [] [])
           (mkSim [] [] []) "gre_tunnels: [" eq_refl eq_refl).
Defined.

(** ** Order of the phases *)

Lemma tunnel_op_only (a : list string) :
  isTunnelOp a = true -> isStaticOp a = false /\ isECMPOp a = false.
Proof.
  destruct a as [|x l]; [discriminate|]. simpl.
  rewrite !orb_true_iff, !String.eqb_eq. intros [[->| ->]| ->];
    destruct l as [|x1 [|x2 [|x3 [|x4 [|x5 [|x6 [|x7 [|x8 l]]]]]]]];
    split; reflexivity.
Qed.

Lemma static_op_only (a : list string) :
  isStaticOp a = true -> isECMPOp a = false.
Proof.
  destruct a as [|x0 [|x1 [|x2 [|x3 [|x4 [|x5 [|x6 [|x7 [|x8 l]]]]]]]]];
    simpl; try discriminate; reflexivity.
Qed.

Lemma nth_error_run {A} (t s e : list A) (i : nat) (a : A) :
  nth_error (t ++ s ++ e) i = Some a ->
  (i < List.length t /\ In a t) \/
  (List.length t <= i < List.length t + List.length s /\ In a s) \/
  (List.length t + List.length s <= i /\ In a e).
Proof.
  intros E. destruct (Nat.lt_ge_cases i (List.length t)) as [L|L].
  - left. split; [exact L|]. rewrite nth_error_app1 in E by exact L.
    now apply nth_error_In in E.
  - right. rewrite nth_error_app2 in E by exact L.
    destruct (Nat.lt_ge_cases (i - List.length t) (List.length s)) as [L2|L2].
    + left. split; [lia|]. rewrite nth_error_app1 in E by exact L2.
      now apply nth_error_In in E.
    + right. split; [lia|]. rewrite nth_error_app2 in E by exact L2.
      now apply nth_error_In in E.
Qed.

(** In a phased trace every tunnel command comes before every
    static-route command, and every static-route command before every
    ECMP command. *)
Lemma phased_precedes (tr : list Call) :
  phased tr ->
  precedes isTunnelOp isStaticOp (issued tr) /\
  precedes isStaticOp isECMPOp (issued tr) /\
  precedes isTunnelOp isECMPOp (issued tr).
Proof.
  intros (t & s & e & -> & Ht & Hs & He).
  rewrite forallb_forall in Ht, Hs, He.
  assert (T : forall i a, nth_error (t ++ s ++ e) i = Some a ->
              isTunnelOp a = true -> i < List.length t).
  { intros i a E Pa. destruct (tunnel_op_only a Pa) as [N1 N2].
    destruct (nth_error_run _ _ _ _ _ E) as [[L _]|[[_ I]|[_ I]]];
      [exact L | | ].
    - apply Hs in I. congruence.
    - apply He in I. congruence. }
  assert (S : forall i a, nth_error (t ++ s ++ e) i = Some a ->
              isStaticOp a = true ->
              List.length t <= i < List.length t + List.length s).
  { intros i a E Pa. pose proof (static_op_only a Pa) as N.
    destruct (nth_error_run _ _ _ _ _ E) as [[_ I]|[[L _]|[_ I]]];
      [ | exact L | ].
    - apply Ht in I. apply tunnel_op_only in I. destruct I. congruence.
    - apply He in I. congruence. }
  assert (E' : forall i a, nth_error (t ++ s ++ e) i = Some a ->
              isECMPOp a = true -> List.length t + List.length s <= i).
  { intros i a E Pa.
    destruct (nth_error_run _ _ _ _ _ E) as [[_ I]|[[_ I]|[L _]]];
      [ | | exact L].
    - apply Ht in I. apply tunnel_op_only in I. destruct I. congruence.
    - apply Hs in I. apply static_op_only in I. congruence. }
  repeat split; intros i j a b Ea Eb Pa Pb.
  - specialize (T _ _ Ea Pa). specialize (S _ _ Eb Pb). lia.
  - specialize (S _ _ Ea Pa). specialize (E' _ _ Eb Pb). lia.
  - specialize (T _ _ Ea Pa). specialize (E' _ _ Eb Pb). lia.
Qed.

(** C4.  In [main.go] the commands of every pass, the one of a write
    event and the one of the start-up, form three runs: tunnel commands,
    then static-route commands, then ECMP commands.  So every tunnel
    command comes before every static-route command and every
    static-route command before every ECMP command. *)
Theorem phases_in_order {H : Host} :
  (forall (filePath : string) (st : State),
     let tr := since st (snd (Plain.onWrite filePath st)) in
     phased tr /\
     precedes isTunnelOp isStaticOp (issued tr) /\
     precedes isStaticOp isECMPOp (issued tr) /\
     precedes isTunnelOp isECMPOp (issued tr)) /\
  (forall (newErr addErr : option error) (st : State),
     let tr := since st (snd (Plain.main (mkWatcher newErr addErr []) st)) in
     phased tr /\
     precedes isTunnelOp isStaticOp (issued tr) /\
     precedes isStaticOp isECMPOp (issued tr) /\
     precedes isTunnelOp isECMPOp (issued tr)).
Proof.
  split.
  - intros filePath st tr.
    assert (P : phased tr).
    { apply (onWrite_phased _ _ _ plain_frame_setupGRETunnels
               plain_frame_setupStaticRoutes
               plain_frame_setupECMPRoutes). }
    split; [exact P | now apply phased_precedes].
  - intros newErr addErr st tr.
    assert (P : phased tr).
    { apply (main_phased Plain.configFilePath _ _ _
               plain_frame_setupGRETunnels
               plain_frame_setupStaticRoutes
               plain_frame_setupECMPRoutes). }
    split; [exact P | now apply phased_precedes].
Qed.

(** The same order holds in the program of [README.md], probes
    included. *)
Lemma probed_phases_in_order {H : Host} (filePath : string) (st : State)
  (newErr addErr : option error) :
  phased (since st (snd (Probed.onWrite filePath st))) /\
  phased (since st (snd (Probed.main (mkWatcher newErr addErr []) st))).
Proof.
  split.
  - apply (onWrite_phased _ _ _ probed_frame_setupGRETunnels
             probed_frame_setupStaticRoutes
             probed_frame_setupECMPRoutes).
  - apply (main_phased Probed.configFilePath _ _ _
             probed_frame_setupGRETunnels
             probed_frame_setupStaticRoutes
             probed_frame_setupECMPRoutes).
Qed.

Example example_pass_in_order :
  issued (calls (snd (Plain.main noWatcher exampleStartState))) =
  [delArgs gre1; addArgs gre1; addrArgs gre1; upArgs gre1;
   delArgs gre2; addArgs gre2; addrArgs gre2; upArgs gre2;
   routeAddArgs route2; routeAddArgs route3; ecmpArgs ecmpDefault].
Proof. reflexivity. Qed.

(** ** The fingerprint gate *)

Section Gate.
Context {H : Host}.

(** A write event that finds a new fingerprint reads the file twice, once
    to hash it and once to load it. *)
Lemma changed_file_is_loaded (filePath : string) (st : State) (o : OS)
  (data : string) :
  os_readFile (os st) filePath = (o, (data, None)) ->
  MD5.EncodeToString (MD5.Sum data) <> currentHash st ->
  reads (since st (snd (Plain.onWrite filePath st))) = [filePath; filePath].
Proof.
  intros E Eh. unfold Plain.onWrite.
  rewrite (onWrite_changed _ _ _ _ _ _ _ E Eh).
  destruct (loadConfig_trace filePath
              (hashed st o filePath (MD5.EncodeToString (MD5.Sum data))))
    as [_ [err2 Hc]].
  destruct (loadConfig filePath _) as [[err|] st2]; simpl in Hc.
  - rewrite (since_app _ _ [ReadFile filePath None; ReadFile filePath err2]);
      [reflexivity|].
    simpl. rewrite Hc. now rewrite <- app_assoc.
  - destruct (reconcile_trace _ _ _ plain_frame_setupGRETunnels
                plain_frame_setupStaticRoutes
                plain_frame_setupECMPRoutes st2)
      as (_ & _ & t & s & e & Hr & Pt & Ps & Pe).
    rewrite (since_app _ _
               ([ReadFile filePath None; ReadFile filePath err2] ++ t ++ s ++ e)).
    + rewrite !reads_app.
      destruct (inPhase_issued _ _ Pt) as [_ ->].
      destruct (inPhase_issued _ _ Ps) as [_ ->].
      destruct (inPhase_issued _ _ Pe) as [_ ->]. reflexivity.
    + rewrite Hr, Hc. simpl. now rewrite <- !app_assoc.
Qed.

End Gate.

(** C5, as amended.  On a write event whose file can be read, [main.go]
    compares the MD5 of the bytes with the stored fingerprint.  When they
    are equal the pass is a no-op: the file has been read once for
    hashing, and nothing else has changed, neither the stored fingerprint
    nor the configuration nor the log, and no command has run.  When they
    differ the change is detected: the new fingerprint is stored, the file
    is read a second time to load it, and the pass goes on with the load
    and, when the load succeeds, with the three phases. *)
Theorem write_event_gated_by_fingerprint {H : Host} (filePath : string)
  (st : State) (o : OS) (data : string) :
  os_readFile (os st) filePath = (o, (data, None)) ->
  let newHash := MD5.EncodeToString (MD5.Sum data) in
  (newHash = currentHash st ->
   Plain.onWrite filePath st =
   (tt, mkState o (calls st ++ [ReadFile filePath None]) (logs st)
          (currentHash st) (config st))) /\
  (newHash <> currentHash st ->
   currentHash (snd (Plain.onWrite filePath st)) = newHash /\
   reads (since st (snd (Plain.onWrite filePath st))) = [filePath; filePath] /\
   Plain.onWrite filePath st =
   match loadConfig filePath (hashed st o filePath newHash) with
   | (Some err, st2) => Printf ("Error loading config: " ++ err) st2
   | (None, st2) => Plain.pass st2
   end).
Proof.
  intros E newHash. split; intros Eh.
  - now apply (onWrite_unchanged _ _ _ _ _ _ _ E).
  - split; [|split].
    + assert (Hh := onWrite_hash _ _ _ plain_frame_setupGRETunnels
                      plain_frame_setupStaticRoutes
                      plain_frame_setupECMPRoutes filePath st).
      now rewrite E in Hh.
    + now apply (changed_file_is_loaded _ _ _ _ E).
    + now apply (onWrite_changed _ _ _ _ _ _ _ E).
Qed.

(** C5, counterexample.  The file holds [collisionA] at the first write
    event and [collisionB], which differs from it, at the second.  The
    first event loads the file and runs the example configuration; the
    second one goes unnoticed: one read for hashing, no load, no command,
    fingerprint and configuration as they were. *)
Lemma md5_collision_goes_unnoticed :
  let st1 := snd (Plain.onWrite "/path/to/config.yml" collisionState) in
  let st2 := snd (Plain.onWrite "/path/to/config.yml" st1) in
  collisionA <> collisionB /\
  currentHash st1 = MD5.EncodeToString (MD5.Sum collisionA) /\
  config st1 = exampleConfig /\
  since st1 st2 = [ReadFile "/path/to/config.yml" None] /\
  currentHash st2 = currentHash st1 /\
  config st2 = config st1.
Proof.
  split; [apply md5_collision|]. vm_compute. repeat split.
Qed.

Lemma write_event_gated_by_fingerprint_witness :
  let st := unparsableState in
  let st' := snd (Plain.onWrite "/path/to/config.yml" st) in
  reads (since st st') = ["/path/to/config.yml"; "/path/to/config.yml"] /\
  Plain.onWrite "/path/to/config.yml" st' =
  (tt, @mkState (simHost []) (mkSim [] [] [])
         (calls st' ++ [ReadFile "/path/to/config.yml" None]) (logs st')
         (currentHash st') (config st')).
Proof.
  intros st st'. split.
  - refine (proj1 (proj2 (proj2
              (@write_event_gated_by_fingerprint (simHost [])
                 "/path/to/config.yml" st
                 (mkSim [("gre_tunnels: [", None); ("gre_tunnels: [", None)] [] [])
                 "gre_tunnels: [" eq_refl) _))).
    vm_compute. discriminate.
  - refine (proj1
              (@write_event_gated_by_fingerprint (simHost [])
                 "/path/to/config.yml" st' (mkSim [] [] [])
                 "gre_tunnels: [" eq_refl) _).
    vm_compute. reflexivity.
Defined.

(** ** The ECMP command *)

Lemma nexthopArgs_flat_map (nhs : list Nexthop) :
  nexthopArgs nhs =
  flat_map
    (fun nh =>
       ["nexthop"; "dev"; Dev nh; "via"; Via nh; "weight";
        GoStrings.Itoa (Weight nh)]) nhs.
Proof.
  unfold nexthopArgs.
  assert (G : forall acc,
            fold_left
              (fun acc nh =>
                 acc ++ ["nexthop"; "dev"; Dev nh; "via"; Via nh; "weight";
                         GoStrings.Itoa (Weight nh)]) nhs acc =
            acc ++ flat_map
              (fun nh =>
                 ["nexthop"; "dev"; Dev nh; "via"; Via nh; "weight";
                  GoStrings.Itoa (Weight nh)]) nhs).
  { induction nhs as [|nh nhs IH]; intros acc.
    - simpl. now rewrite app_nil_r.
    - cbn [fold_left flat_map]. rewrite IH. now rewrite <- app_assoc. }
  exact (G []).
Qed.

(** C6.  The arguments built for an ECMP route are [route add], the route
    selector, [proto static scope global], [table] and the table name,
    and then for each nexthop, in the order of the configuration,
    [nexthop dev <device> via <address> weight <weight>] with the weight
    in decimal.  [main.go] runs exactly one command with these arguments
    for every ECMP route; the program of [README.md] runs it, after the
    probe, when the probe says the route is absent. *)
Theorem ecmp_command_shape :
  (forall ecmp : ECMPRoute,
     ecmpArgs ecmp =
     ["route"; "add"; Route ecmp; "proto"; "static"; "scope"; "global";
      "table"; Table ecmp]
     ++ flat_map
          (fun nh =>
             ["nexthop"; "dev"; Dev nh; "via"; Via nh; "weight";
              GoStrings.Itoa (Weight nh)]) (Nexthops ecmp)) /\
  (forall (H : Host) (ecmp : ECMPRoute) (st : State),
     exists err,
       since st (snd (Plain.ecmpBody ecmp st)) =
       [Exec "ip" (ecmpArgs ecmp) err]) /\
  (forall (H : Host) (st : State),
     issued (since st (snd (Plain.setupECMPRoutes st))) =
     map ecmpArgs (ECMPRoutes (config st))) /\
  (forall (H : Host) (ecmp : ECMPRoute) (st : State),
     issued (since st (snd (Probed.ecmpBody ecmp st))) =
     ["route"; "show"; "table"; Table ecmp] ::
     (if fst (Probed.ecmpRouteExists (Route ecmp) (Table ecmp) st)
      then [] else [ecmpArgs ecmp])).
Proof.
  repeat split.
  - intros ecmp. unfold ecmpArgs. now rewrite nexthopArgs_flat_map.
  - intros H ecmp st. apply plain_ecmpBody_trace.
  - intros H st. unfold Plain.setupECMPRoutes, bind, getConfig.
    apply plain_ecmp_loop_trace.
  - intros H ecmp st. apply probed_ecmpBody_trace.
Qed.

Example ecmp_command_example :
  ecmpArgs ecmpDefault =
  ["route"; "add"; "default"; "proto"; "static"; "scope"; "global";
   "table"; "GRE";
   "nexthop"; "dev"; "gre1"; "via"; "10.0.40.5"; "weight"; "1";
   "nexthop"; "dev"; "gre2"; "via"; "10.0.41.5"; "weight"; "1"].
Proof. reflexivity. Qed.

(** ** The existence probes *)




(** C7.  [routeExists] answers yes exactly when the destination occurs
    somewhere in the output of [ip route show] and the gateway occurs
    somewhere in it; they need not be on one line: in the two-line table
    [routeShowCrossed] no line holds both the destination and the gateway
    asked for, and the answer is yes. *)
Theorem routeExists_is_textual_containment :
  (forall (H : Host) (destination gateway : string) (st : State),
     fst (Probed.routeExists destination gateway st) = true <->
     occurs destination (stdout_of st ["route"; "show"]) /\
     occurs gateway (stdout_of st ["route"; "show"])) /\
  (fst (Probed.routeExists "192.168.3.0/24" "192.168.1.254" crossedState)
     = true /\
   forallb
     (fun line =>
        negb (GoStrings.Contains line "192.168.3.0/24"
              && GoStrings.Contains line "192.168.1.254"))
     (GoStrings.Lines (stdout_of crossedState ["route"; "show"])) = true).
Proof.
  split.
  - intros H destination gateway st.
    now rewrite probed_routeExists_run, andb_true_iff, !Contains_iff.
  - split; reflexivity.
Qed.

(** C10, as amended.  The probes drop the error of their query and
    answer from the captured output alone.  When that output is empty,
    whatever the error of the query: [tunnelExists] answers no for every
    name but the empty one, and the loop runs no delete before the add;
    [routeExists] answers no unless destination and gateway are both
    empty, and the loop runs the route-add; [ecmpRouteExists] answers no,
    and the loop runs the ECMP route-add. *)
Theorem probes_answer_from_output_alone :
  (forall (H : Host) (name destination gateway route table : string)
          (st : State),
     fst (Probed.tunnelExists name st) =
       GoStrings.Contains (stdout_of st ["tunnel"; "show"]) name /\
     fst (Probed.routeExists destination gateway st) =
       (GoStrings.Contains (stdout_of st ["route"; "show"]) destination
        && GoStrings.Contains (stdout_of st ["route"; "show"]) gateway) /\
     fst (Probed.ecmpRouteExists route table st) =
       existsb (fun line => GoStrings.Contains line route)
         (GoStrings.Lines (stdout_of st ["route"; "show"; "table"; table]))) /\
  (forall (H : Host) (t : Tunnel) (st : State) (o : OS) (err : option error),
     os_run (os st) "ip" ["tunnel"; "show"] = (o, ("", err)) ->
     Name t <> "" ->
     fst (Probed.tunnelExists (Name t) st) = false /\
     exists k,
       1 <= k /\
       issued (since st (snd (Probed.tunnelBody t st))) =
       ["tunnel"; "show"] :: firstn k [addArgs t; addrArgs t; upArgs t]) /\
  (forall (H : Host) (r : StaticRoute) (st : State) (o : OS)
          (err : option error),
     os_run (os st) "ip" ["route"; "show"] = (o, ("", err)) ->
     Destination r <> "" \/ Gateway r <> "" ->
     fst (Probed.routeExists (Destination r) (Gateway r) st) = false /\
     issued (since st (snd (Probed.staticBody r st))) =
       [["route"; "show"]; routeAddArgs r]) /\
  (forall (H : Host) (e : ECMPRoute) (st : State) (o : OS)
          (err : option error),
     os_run (os st) "ip" ["route"; "show"; "table"; Table e] = (o, ("", err)) ->
     fst (Probed.ecmpRouteExists (Route e) (Table e) st) = false /\
     issued (since st (snd (Probed.ecmpBody e st))) =
       [["route"; "show"; "table"; Table e]; ecmpArgs e]).
Proof.
  split; [|split; [|split]].
  - intros H name destination gateway route table st. repeat split.
    + apply probed_tunnelExists_run.
    + apply probed_routeExists_run.
    + apply probed_ecmpRouteExists_run.
  - intros H t st o err E Hname.
    assert (Hex : fst (Probed.tunnelExists (Name t) st) = false).
    { rewrite probed_tunnelExists_run. unfold stdout_of. rewrite E.
      cbn [fst snd]. rewrite Contains_empty_output.
      now apply String.eqb_neq. }
    split; [exact Hex|].
    destruct (probed_tunnelBody_cases t st) as (pre & Hi & _ & Hcases).
    cbv zeta in Hcases. rewrite Hex in Hi.
    destruct Hcases as [[e' [_ Hs]] | [[e' [_ Hs]] | [[e' [_ Hs]] | [_ Hs]]]];
      rewrite Hs, issued_app, Hi;
      [exists 1 | exists 2 | exists 3 | exists 3]; split; (lia || reflexivity).
  - intros H r st o err E Hne.
    assert (Hex : fst (Probed.routeExists (Destination r) (Gateway r) st)
                  = false).
    { rewrite probed_routeExists_run. unfold stdout_of. rewrite E.
      cbn [fst snd]. rewrite !Contains_empty_output.
      apply andb_false_iff.
      destruct Hne as [N|N]; [left | right]; now apply String.eqb_neq. }
    split; [exact Hex|].
    destruct (probed_staticBody_trace r st) as [_ Hi].
    now rewrite Hex in Hi.
  - intros H e st o err E.
    assert (Hex : fst (Probed.ecmpRouteExists (Route e) (Table e) st) = false).
    { rewrite probed_ecmpRouteExists_run. unfold stdout_of. rewrite E.
      reflexivity. }
    split; [exact Hex|].
    destruct (probed_ecmpBody_trace e st) as [_ Hi].
    now rewrite Hex in Hi.
Qed.

(** C10, counterexample.  The query fails and prints nothing, and yet
    [tunnelExists] answers yes for the tunnel without a name, because the
    empty name occurs in every text; the delete is run, not skipped. *)
Lemma failed_probe_can_answer_yes :
  os_run (os deadProbeState) "ip" ["tunnel"; "show"] =
    (os deadProbeState, ("", Some "exit status 1")) /\
  fst (Probed.tunnelExists (Name nameless) deadProbeState) = true /\
  issued (calls (snd (Probed.tunnelBody nameless deadProbeState))) =
    [["tunnel"; "show"]; delArgs nameless; addArgs nameless;
     addrArgs nameless; upArgs nameless].
Proof. repeat split. Qed.

Lemma probes_answer_from_output_alone_witness :
  (fst (Probed.tunnelExists "gre1" deadProbeState) = false /\
   exists k,
     1 <= k /\
     issued (since deadProbeState (snd (Probed.tunnelBody gre1 deadProbeState)))
     = ["tunnel"; "show"] :: firstn k [addArgs gre1; addrArgs gre1; upArgs gre1])
  /\
  (fst (Probed.routeExists "192.168.2.0/24" "192.168.1.254" deadProbeState)
     = false /\
   issued (since deadProbeState (snd (Probed.staticBody route2 deadProbeState)))
     = [["route"; "show"]; routeAddArgs route2]) /\
  (fst (Probed.ecmpRouteExists "default" "GRE" deadProbeState) = false /\
   issued (since deadProbeState (snd (Probed.ecmpBody ecmpDefault deadProbeState)))
     = [["route"; "show"; "table"; "GRE"]; ecmpArgs ecmpDefault]).
Proof.
  destruct probes_answer_from_output_alone as (_ & A & B & C).
  split; [|split].
  - refine (A (simHost []) gre1 deadProbeState (os deadProbeState)
              (Some "exit status 1") eq_refl _).
    discriminate.
  - refine (B (simHost []) route2 deadProbeState (os deadProbeState)
              (Some "exit status 1") eq_refl _).
    left. discriminate.
  - exact (C (simHost []) ecmpDefault deadProbeState (os deadProbeState)
             (Some "exit status 1") eq_refl).
Defined.

(** * Further properties of the code *)

(** ** Start-up and watch passes of [main.go] *)

Section PlainPasses.
Context {H : Host}.

Lemma logIfErr_keeps prefix r (st : State) :
  os (snd (logIfErr prefix r st)) = os st /\
  calls (snd (logIfErr prefix r st)) = calls st /\
  config (snd (logIfErr prefix r st)) = config st /\
  currentHash (snd (logIfErr prefix r st)) = currentHash st.
Proof. destruct r; simpl; auto. Qed.

(** The commands of a pass of the watch loop, phase by phase. *)
Lemma plain_pass_trace (st : State) :
  issued (since st (snd (Plain.pass st))) =
  issued (since st (snd (Plain.setupGRETunnels st)))
  ++ map routeAddArgs (StaticRoutes (config st))
  ++ map ecmpArgs (ECMPRoutes (config st)).
Proof.
  unfold Plain.pass, reconcile, bind.
  destruct (plain_frame_setupGRETunnels st) as (_ & Hc1 & t & Ht & _).
  destruct (Plain.setupGRETunnels st) as [r1 st1]. cbn [snd] in *.
  destruct (logIfErr_keeps "Error setting up GRE tunnels: " r1 st1)
    as (_ & Hl1 & Hg1 & _).
  destruct (logIfErr _ r1 st1) as [[] st1']. cbn [snd] in *.
  pose proof (plain_static_routes_always_added st1') as Hs.
  destruct (plain_frame_setupStaticRoutes st1') as (_ & Hc2 & s & Hs' & _).
  destruct (Plain.setupStaticRoutes st1') as [r2 st2]. cbn [snd] in *.
  destruct (logIfErr_keeps "Error setting up static routes: " r2 st2)
    as (_ & Hl2 & Hg2 & _).
  destruct (logIfErr _ r2 st2) as [[] st2']. cbn [snd] in *.
  assert (He : issued (since st2' (snd (Plain.setupECMPRoutes st2'))) =
               map ecmpArgs (ECMPRoutes (config st2'))).
  { unfold Plain.setupECMPRoutes, bind, getConfig.
    apply plain_ecmp_loop_trace. }
  destruct (plain_frame_setupECMPRoutes st2') as (_ & Hc3 & e & He' & _).
  destruct (Plain.setupECMPRoutes st2') as [r3 st3]. cbn [snd] in *.
  destruct (logIfErr_keeps "Error setting up ECMP routes: " r3 st3)
    as (_ & Hl3 & Hg3 & _).
  destruct (logIfErr _ r3 st3) as [[] st3']. cbn [snd] in *.
  rewrite (since_app _ _ _ Hs') in Hs. rewrite (since_app _ _ _ He') in He.
  rewrite (since_app _ _ _ Ht).
  rewrite (since_app _ _ (t ++ s ++ e)).
  - rewrite !issued_app, Hs, He. now rewrite Hg2, Hc2, Hg1, Hc1.
  - rewrite Hl3, He', Hl2, Hs', Hl1, Ht. now rewrite <- !app_assoc.
Qed.

End PlainPasses.

(** X1.  [main.go] has no probe: whatever the kernel holds and whichever
    commands fail, its static-route phase runs the route-add of every
    static route of the configuration, once each and in order; it reads
    no file and leaves the configuration as it is. *)
Theorem static_routes_all_attempted {H : Host} (st : State) :
  issued (since st (snd (Plain.setupStaticRoutes st))) =
    map routeAddArgs (StaticRoutes (config st)) /\
  reads (since st (snd (Plain.setupStaticRoutes st))) = [] /\
  config (snd (Plain.setupStaticRoutes st)) = config st.
Proof.
  destruct (plain_frame_setupStaticRoutes st) as (_ & Hc & tr & Ht & Hp).
  split; [|split].
  - unfold Plain.setupStaticRoutes, bind, getConfig.
    apply plain_static_loop_trace.
  - rewrite (since_app _ _ _ Ht). now apply (inPhase_issued isStaticOp).
  - exact Hc.
Qed.

(** X2.  In a pass of the watch loop of [main.go] the two route phases
    run in full whatever the tunnel phase returned: the commands of the
    pass are those of the tunnel phase, then the route-add of every static
    route, then the command of every ECMP route. *)
Theorem watch_pass_runs_routes_after_tunnels {H : Host} (st : State) :
  issued (since st (snd (Plain.pass st))) =
    issued (since st (snd (Plain.setupGRETunnels st)))
    ++ map routeAddArgs (StaticRoutes (config st))
    ++ map ecmpArgs (ECMPRoutes (config st)) /\
  (forall e,
     fst (Plain.setupGRETunnels st) = Some e ->
     forall r, In r (StaticRoutes (config st)) ->
       In (routeAddArgs r) (issued (since st (snd (Plain.pass st))))).
Proof.
  split; [apply plain_pass_trace|].
  intros e _ r Hr. rewrite plain_pass_trace.
  apply in_or_app. right. apply in_or_app. left. now apply in_map.
Qed.

Lemma watch_pass_runs_routes_after_tunnels_witness :
  fst (Plain.setupGRETunnels brokenExampleState) = Some "exit status 1" /\
  In (routeAddArgs route2)
    (issued (since brokenExampleState (snd (Plain.pass brokenExampleState)))).
Proof.
  split; [reflexivity|].
  exact (proj2 (@watch_pass_runs_routes_after_tunnels (simHost [])
                  brokenExampleState)
           "exit status 1" eq_refl route2 (or_introl eq_refl)).
Defined.

Example watch_pass_after_failed_tunnel :
  fst (Plain.setupGRETunnels brokenExampleState) = Some "exit status 1" /\
  issued (calls (snd (Plain.pass brokenExampleState))) =
  [delArgs gre1; addArgs gre1;
   routeAddArgs route2; routeAddArgs route3; ecmpArgs ecmpDefault].
Proof. split; reflexivity. Qed.

(** X3.  At start-up it is the other way round: when [main] of [main.go]
    stops at the fatal exit of the tunnel phase, every command it has run
    is a tunnel command; no route command is run. *)
Theorem startup_tunnel_failure_runs_no_route {H : Host} (w : Watcher)
  (st : State) (e : error) :
  fst (Plain.main w st) = Fatal AtTunnels e ->
  forallb isTunnelOp (issued (since st (snd (Plain.main w st)))) = true.
Proof.
  unfold Plain.main, main, bind.
  destruct (loadConfig_trace Plain.configFilePath st) as [_ [err1 Hc1]].
  destruct (loadConfig Plain.configFilePath st) as [[e1|] st1];
    [discriminate|]. cbn [snd] in Hc1.
  cbn [getConfig]. unfold initLogger, osOpenFile.
  destruct (os_openFile (os st1) _) as [o2 [e2|]]; [discriminate|].
  match goal with |- context [Plain.setupGRETunnels ?x] => set (st2 := x) end.
  assert (Hc2 : calls st2 = calls st ++
                [ReadFile Plain.configFilePath err1;
                 OpenFile (LogFilePath (ProgramSettings (config st1))) None]).
  { subst st2. cbn [calls]. rewrite Hc1. now rewrite <- app_assoc. }
  clearbody st2.
  destruct (plain_frame_setupGRETunnels st2) as (_ & _ & t & Ht & Pt).
  destruct (Plain.setupGRETunnels st2) as [[e3|] st3]; cbn [snd] in Ht.
  - intros _. cbn [Fatalf bind Printf ret snd calls].
    rewrite (since_app _ _
               ([ReadFile Plain.configFilePath err1;
                 OpenFile (LogFilePath (ProgramSettings (config st1))) None]
                ++ t)).
    + rewrite issued_app. simpl. now apply inPhase_issued.
    + simpl. rewrite Ht, Hc2. now rewrite <- app_assoc.
  - destruct (Plain.setupStaticRoutes st3) as [[e4|] st4]; [discriminate|].
    destruct (Plain.setupECMPRoutes st4) as [[e5|] st5]; [discriminate|].
    rewrite getFileMD5_run.
    destruct (os_readFile (os st5) Plain.configFilePath) as [o6 [data [e6|]]];
      [discriminate|].
    cbn [snd fst setCurrentHash]. unfold watchConfigFile.
    destruct (NewWatcher_err w); [discriminate|].
    destruct (Add_err w); [discriminate|].
    unfold bind. now destruct (watchLoop _ _ _ _ _ _).
Qed.

Lemma startup_tunnel_failure_runs_no_route_witness :
  fst (Plain.main noWatcher brokenStartState) = Fatal AtTunnels "exit status 1"
  /\
  forallb isTunnelOp
    (issued (since brokenStartState
               (snd (Plain.main noWatcher brokenStartState)))) = true.
Proof.
  split; [reflexivity|].
  exact (@startup_tunnel_failure_runs_no_route
           (simHost [("tunnels", twoTunnels)]) noWatcher brokenStartState
           "exit status 1" eq_refl).
Defined.

(** X4.  When the initial load of the configuration fails, [main] of
    [main.go] has done nothing but read the file once: no command, no log
    file opened, no log line, fingerprint as it was. *)
Theorem startup_load_failure_runs_nothing {H : Host} (w : Watcher)
  (st : State) (e : error) :
  fst (Plain.main w st) = Fatal AtLoadConfig e ->
  let st' := snd (Plain.main w st) in
  (exists err, since st st' = [ReadFile Plain.configFilePath err]) /\
  logs st' = logs st /\ currentHash st' = currentHash st.
Proof.
  unfold Plain.main, main, bind.
  assert (Hl : (exists err,
                  calls (snd (loadConfig Plain.configFilePath st)) =
                  calls st ++ [ReadFile Plain.configFilePath err]) /\
               logs (snd (loadConfig Plain.configFilePath st)) = logs st /\
               currentHash (snd (loadConfig Plain.configFilePath st)) =
               currentHash st).
  { unfold loadConfig, bind, ioReadFile, Unmarshal.
    destruct (os_readFile (os st) Plain.configFilePath) as [o [data [x|]]];
      simpl.
    - split; [now exists (Some x) | split; reflexivity].
    - destruct (yaml_Unmarshal data (config st)) as [c err]. simpl.
      split; [now exists None | split; reflexivity]. }
  destruct (loadConfig Plain.configFilePath st) as [[e1|] st1]; cbn [snd] in Hl.
  - intros _. cbn [ret snd]. destruct Hl as ([err Hc] & Hlog & Hh).
    split; [|split; [exact Hlog | exact Hh]].
    exists err. now apply since_app.
  - cbn [getConfig].
    destruct (initLogger _ st1) as [[e2|] st2]; [discriminate|].
    destruct (Plain.setupGRETunnels st2) as [[e3|] st3]; [discriminate|].
    destruct (Plain.setupStaticRoutes st3) as [[e4|] st4]; [discriminate|].
    destruct (Plain.setupECMPRoutes st4) as [[e5|] st5]; [discriminate|].
    rewrite getFileMD5_run.
    destruct (os_readFile (os st5) Plain.configFilePath) as [o6 [data [e6|]]];
      [discriminate|].
    cbn [snd fst setCurrentHash]. unfold watchConfigFile.
    destruct (NewWatcher_err w); [discriminate|].
    destruct (Add_err w); [discriminate|].
    unfold bind. now destruct (watchLoop _ _ _ _ _ _).
Qed.

Lemma startup_load_failure_runs_nothing_witness :
  let st' := snd (Plain.main noWatcher noFileState) in
  fst (Plain.main noWatcher noFileState)
    = Fatal AtLoadConfig "no such file or directory" /\
  (exists err, since noFileState st' = [ReadFile Plain.configFilePath err]) /\
  logs st' = logs noFileState /\ currentHash st' = currentHash noFileState.
Proof.
  split; [reflexivity|].
  exact (@startup_load_failure_runs_nothing (simHost []) noWatcher noFileState
           "no such file or directory" eq_refl).
Defined.

(** X5.  At start-up [main.go] takes the fingerprint from a second read
    of the file, made after the three phases, while the configuration is
    what the first read decoded to.  [st5] is the state in which the ECMP
    phase ends; when [main] reaches the watch loop, the file has been read
    once up to [st5], the read made in [st5] succeeded, the stored
    fingerprint is the MD5 of the bytes of that read, and the
    configuration is the one decoded from the bytes of the first read. *)
Theorem startup_fingerprint_from_second_read {H : Host} (st : State) :
  fst (Plain.main noWatcher st) = Waiting ->
  let first := os_readFile (os st) Plain.configFilePath in
  let st1 := snd (loadConfig Plain.configFilePath st) in
  let st2 :=
    snd (initLogger (LogFilePath (ProgramSettings (config st1))) st1) in
  let st3 := snd (Plain.setupGRETunnels st2) in
  let st4 := snd (Plain.setupStaticRoutes st3) in
  let st5 := snd (Plain.setupECMPRoutes st4) in
  let second := os_readFile (os st5) Plain.configFilePath in
  let st' := snd (Plain.main noWatcher st) in
  reads (since st st5) = [Plain.configFilePath] /\
  snd (snd second) = None /\
  since st5 st' = [ReadFile Plain.configFilePath None] /\
  currentHash st' = MD5.EncodeToString (MD5.Sum (fst (snd second))) /\
  config st' = fst (yaml_Unmarshal (fst (snd first)) (config st)).
Proof.
  cbv zeta. unfold Plain.main, main, bind.
  assert (Hcfg1 : forall st1,
            loadConfig Plain.configFilePath st = (None, st1) ->
            config st1 =
            fst (yaml_Unmarshal
                   (fst (snd (os_readFile (os st) Plain.configFilePath)))
                   (config st))).
  { intros st1. unfold loadConfig, bind, ioReadFile, Unmarshal.
    destruct (os_readFile (os st) Plain.configFilePath) as [o [data [x|]]];
      cbn [fst snd ret]; [discriminate|].
    cbn [config].
    destruct (yaml_Unmarshal data (config st)) as [c err].
    intros [= _ <-]. reflexivity. }
  destruct (loadConfig_trace Plain.configFilePath st) as [_ [err1 Hc1]].
  destruct (loadConfig Plain.configFilePath st) as [[e1|] st1];
    [discriminate|]. cbn [snd] in Hc1 |- *.
  specialize (Hcfg1 st1 eq_refl).
  cbn [getConfig]. unfold initLogger, osOpenFile.
  destruct (os_openFile (os st1) _) as [o2 [e2|]]; [discriminate|].
  cbn [snd].
  match goal with |- context [Plain.setupGRETunnels ?x] => set (st2 := x) end.
  assert (Hc2 : calls st2 = calls st ++
                [ReadFile Plain.configFilePath err1;
                 OpenFile (LogFilePath (ProgramSettings (config st1))) None]).
  { subst st2. cbn [calls]. rewrite Hc1. now rewrite <- app_assoc. }
  assert (Hg2 : config st2 = config st1) by reflexivity.
  clearbody st2.
  destruct (plain_frame_setupGRETunnels st2) as (_ & Hg3 & t & Ht & Pt).
  destruct (Plain.setupGRETunnels st2) as [[e3|] st3]; [discriminate|].
  cbn [snd] in Hg3, Ht |- *.
  destruct (plain_frame_setupStaticRoutes st3) as (_ & Hg4 & s & Hs & Ps).
  destruct (Plain.setupStaticRoutes st3) as [[e4|] st4]; [discriminate|].
  cbn [snd] in Hg4, Hs |- *.
  destruct (plain_frame_setupECMPRoutes st4) as (_ & Hg5 & e & He & Pe).
  destruct (Plain.setupECMPRoutes st4) as [[e5|] st5]; [discriminate|].
  cbn [snd] in Hg5, He |- *.
  rewrite getFileMD5_run.
  destruct (os_readFile (os st5) Plain.configFilePath) as [o6 [data [e6|]]];
    [discriminate|].
  intros _. cbn. repeat split.
  - rewrite (since_app _ _
               ([ReadFile Plain.configFilePath err1;
                 OpenFile (LogFilePath (ProgramSettings (config st1))) None]
                ++ t ++ s ++ e)).
    + rewrite !reads_app.
      destruct (inPhase_issued _ _ Pt) as [_ ->].
      destruct (inPhase_issued _ _ Ps) as [_ ->].
      destruct (inPhase_issued _ _ Pe) as [_ ->]. reflexivity.
    + rewrite He, Hs, Ht, Hc2. now rewrite <- !app_assoc.
  - now apply since_app.
  - rewrite Hg5, Hg4, Hg3, Hg2. exact Hcfg1.
Qed.

Lemma startup_fingerprint_from_second_read_witness :
  let st' := snd (Plain.main noWatcher driftStartState) in
  config st' = twoTunnels /\
  currentHash st' = MD5.EncodeToString (MD5.Sum "changed meanwhile") /\
  currentHash st' <> MD5.EncodeToString (MD5.Sum "tunnels").
Proof.
  destruct (@startup_fingerprint_from_second_read
              (simHost [("tunnels", twoTunnels)]) driftStartState eq_refl)
    as (_ & _ & _ & Hh & Hc).
  split; [exact Hc|]. split; [exact Hh|].
  rewrite Hh. vm_compute. discriminate.
Defined.

(** ** The watch loop *)

Lemma write_bit (op : N) :
  N.eqb (N.land op fsnotify_Write) fsnotify_Write = N.testbit op 1.
Proof.
  unfold fsnotify_Write. destruct (N.testbit op 1) eqn:B.
  - apply N.eqb_eq. apply N.bits_inj. intros n. rewrite N.land_spec.
    change 2%N with (2 ^ 1)%N. rewrite N.pow2_bits_eqb.
    destruct (N.eqb_spec 1 n) as [<-|_]; [now rewrite B | apply andb_false_r].
  - apply N.eqb_neq. intros E.
    apply (f_equal (fun x => N.testbit x 1)) in E.
    rewrite N.land_spec, B in E. discriminate E.
Qed.

(** X6.  The watch loop reacts to the write bit of an event and to
    nothing else: an event without it (a create, remove, rename or chmod
    alone) changes nothing and reads nothing, whatever the phases are; an
    event with it, alone or with other bits, is handled as a write. *)
Theorem only_write_events_are_handled {H : Host}
  (setupGRETunnels setupStaticRoutes setupECMPRoutes : M (option error))
  (filePath : string) (op : N) (st : State) :
  onMsg setupGRETunnels setupStaticRoutes setupECMPRoutes filePath
    (Event op) st =
  if N.testbit op 1
  then (false,
        snd (onWrite setupGRETunnels setupStaticRoutes setupECMPRoutes
               filePath st))
  else (false, st).
Proof.
  unfold onMsg. rewrite write_bit. destruct (N.testbit op 1); [|reflexivity].
  unfold bind, ret.
  now destruct (onWrite _ _ _ filePath st) as [[] st'].
Qed.

Example chmod_and_rename_are_ignored :
  snd (onMsg Plain.setupGRETunnels Plain.setupStaticRoutes
         Plain.setupECMPRoutes "/path/to/config.yml" (Event 16)
         unparsableState) = unparsableState /\
  snd (onMsg Plain.setupGRETunnels Plain.setupStaticRoutes
         Plain.setupECMPRoutes "/path/to/config.yml" (Event 9)
         unparsableState) = unparsableState.
Proof. split; reflexivity. Qed.

(** X7.  Once a channel of the watcher is closed the goroutine returns:
    whatever comes after a close message is never handled.  Before a
    close, the loop handles the messages one after the other. *)
Theorem watch_loop_stops_at_close {H : Host}
  (setupGRETunnels setupStaticRoutes setupECMPRoutes : M (option error))
  (filePath : string) (pre post : list Msg) (m : Msg) (st : State) :
  isClose m = true ->
  watchLoop setupGRETunnels setupStaticRoutes setupECMPRoutes filePath
    (pre ++ m :: post) st =
  watchLoop setupGRETunnels setupStaticRoutes setupECMPRoutes filePath pre st
  /\
  (forallb (fun x => negb (isClose x)) pre = true ->
   forall more,
     watchLoop setupGRETunnels setupStaticRoutes setupECMPRoutes filePath
       (pre ++ more) st =
     watchLoop setupGRETunnels setupStaticRoutes setupECMPRoutes filePath
       more
       (snd (watchLoop setupGRETunnels setupStaticRoutes setupECMPRoutes
               filePath pre st))).
Proof.
  intros Hm. split.
  - revert st. induction pre as [|x pre IH]; intros st.
    + simpl. unfold bind. destruct m; try discriminate Hm; reflexivity.
    + simpl. unfold bind.
      destruct (onMsg _ _ _ filePath x st) as [[|] st1]; [reflexivity|].
      apply IH.
  - revert st. induction pre as [|x pre IH]; intros st Hpre more.
    + reflexivity.
    + simpl in Hpre. apply andb_true_iff in Hpre. destruct Hpre as [Hx Hpre].
      simpl. unfold bind.
      assert (Hs : fst (onMsg setupGRETunnels setupStaticRoutes
                          setupECMPRoutes filePath x st) = false).
      { destruct x; try discriminate Hx; simpl; unfold bind.
        - destruct (N.eqb _ _); [|reflexivity].
          now destruct (onWrite _ _ _ filePath st).
        - reflexivity. }
      destruct (onMsg _ _ _ filePath x st) as [[|] st1]; [discriminate Hs|].
      now apply IH.
Qed.

Lemma watch_loop_stops_at_close_witness :
  watchLoop Plain.setupGRETunnels Plain.setupStaticRoutes
    Plain.setupECMPRoutes "/path/to/config.yml"
    ([Event 16] ++ EventsClosed :: [Event 2]) unparsableState =
  watchLoop Plain.setupGRETunnels Plain.setupStaticRoutes
    Plain.setupECMPRoutes "/path/to/config.yml" [Event 16] unparsableState.
Proof.
  exact (proj1 (@watch_loop_stops_at_close (simHost [])
                  Plain.setupGRETunnels Plain.setupStaticRoutes
                  Plain.setupECMPRoutes "/path/to/config.yml"
                  [Event 16] [Event 2] EventsClosed unparsableState eq_refl)).
Defined.

(** X8.  A write event whose file cannot be read is reported and leaves
    everything else alone: one log line, the stored fingerprint and the
    configuration as they were, no command and no second read. *)
Theorem unreadable_write_event_changes_nothing {H : Host}
  (filePath : string) (st : State) (o : OS) (data : string) (e : error) :
  os_readFile (os st) filePath = (o, (data, Some e)) ->
  let st' := snd (Plain.onWrite filePath st) in
  currentHash st' = currentHash st /\ config st' = config st /\
  since st st' = [ReadFile filePath (Some e)] /\
  logs st' = logs st ++ [("Error reading file: " ++ e)%string].
Proof.
  intros E st'. subst st'. unfold Plain.onWrite.
  rewrite (onWrite_unreadable _ _ _ _ _ _ _ _ E). cbn [snd].
  repeat split. now apply since_app.
Qed.

Lemma unreadable_write_event_changes_nothing_witness :
  let st' := snd (Plain.onWrite "/path/to/config.yml" noFileState) in
  currentHash st' = currentHash noFileState /\
  config st' = config noFileState /\
  since noFileState st' =
    [ReadFile "/path/to/config.yml" (Some "no such file or directory")] /\
  logs st' = ["Error reading file: no such file or directory"].
Proof.
  exact (@unreadable_write_event_changes_nothing (simHost [])
           "/path/to/config.yml" noFileState (mkSim [] [] []) ""
           "no such file or directory" eq_refl).
Defined.

(** ** The fingerprint *)

Lemma hexdigit_lower (x : Z) :
  (0 <= x < 16)%Z -> isLowerHex (MD5.hexdigit x) = true.
Proof.
  intros Hx.
  assert (C : In x (map Z.of_nat (seq 0 16))).
  { replace x with (Z.of_nat (Z.to_nat x)) by lia.
    apply in_map, in_seq. lia. }
  simpl in C.
  repeat (destruct C as [<-|C]; [reflexivity|]). destruct C.
Qed.

Lemma EncodeToString_shape (bs : list Z) :
  Forall (fun b => (0 <= b < 256)%Z) bs ->
  String.length (MD5.EncodeToString bs) = 2 * List.length bs /\
  forallb isLowerHex (list_ascii_of_string (MD5.EncodeToString bs)) = true.
Proof.
  induction 1 as [|b bs Hb _ [IHl IHh]]; [now split|].
  cbn [MD5.EncodeToString String.length List.length list_ascii_of_string
       forallb].
  rewrite IHl, IHh, !hexdigit_lower.
  - split; [lia | reflexivity].
  - apply Z.mod_pos_bound. lia.
  - split; [apply Z.div_pos; lia | apply Z.div_lt_upper_bound; lia].
Qed.

Lemma Sum_bytes (data : string) :
  List.length (MD5.Sum data) = 16 /\
  Forall (fun b => (0 <= b < 256)%Z) (MD5.Sum data).
Proof.
  unfold MD5.Sum.
  destruct (MD5.blocks _ MD5.init _) as [[[a b] c] d].
  unfold MD5.le_bytes. cbn [seq map app List.length]. split; [reflexivity|].
  repeat constructor; apply Z.mod_pos_bound; lia.
Qed.

(** X9.  A fingerprint that [getFileMD5] returns without error is a text
    of 32 lower-case hexadecimal digits; with an error it is the empty
    text.  So the fingerprint of a readable file never equals the empty
    fingerprint the program starts with. *)
Theorem fingerprint_is_32_hex_digits {H : Host} (filePath : string)
  (st : State) :
  let r := fst (getFileMD5 filePath st) in
  match snd r with
  | None =>
      String.length (fst r) = 32 /\
      forallb isLowerHex (list_ascii_of_string (fst r)) = true /\
      fst r <> ""
  | Some _ => fst r = ""
  end.
Proof.
  rewrite getFileMD5_run.
  destruct (os_readFile (os st) filePath) as [o [data [e|]]]; cbn;
    [reflexivity|].
  destruct (Sum_bytes data) as [Hl Hb].
  destruct (EncodeToString_shape _ Hb) as [Hlen Hhex]. rewrite Hl in Hlen.
  repeat split; [exact Hlen | exact Hhex |].
  intros E. rewrite E in Hlen. discriminate Hlen.
Qed.

(** ** The ECMP command, read backwards *)

Lemma Itoa_inj (a b : Z) : GoStrings.Itoa a = GoStrings.Itoa b -> a = b.
Proof.
  unfold GoStrings.Itoa. intros E.
  assert (N : forall z, NilZero.int_of_string
                          (NilZero.string_of_int (Z.to_int z))
                        = Some (Z.to_int z)).
  { intros z. apply NilZero.isi; destruct z; simpl; try discriminate;
      intros [= E']; now apply (DecimalPos.Unsigned.to_uint_nonnil p). }
  apply (f_equal NilZero.int_of_string) in E. rewrite !N in E.
  injection E as E. now apply DecimalZ.to_int_inj.
Qed.

Lemma nexthop_chunks_inj (l1 l2 : list Nexthop) :
  flat_map
    (fun nh =>
       ["nexthop"; "dev"; Dev nh; "via"; Via nh; "weight";
        GoStrings.Itoa (Weight nh)]) l1 =
  flat_map
    (fun nh =>
       ["nexthop"; "dev"; Dev nh; "via"; Via nh; "weight";
        GoStrings.Itoa (Weight nh)]) l2 ->
  l1 = l2.
Proof.
  revert l2. induction l1 as [|[d v w] l1 IH]; intros [|[d' v' w'] l2];
    simpl; try discriminate; [reflexivity|].
  intros E. injection E as -> -> Ew E. apply Itoa_inj in Ew. subst w'.
  f_equal. now apply IH.
Qed.

(** X10.  The arguments built for an ECMP route determine the route: two
    ECMP routes get the same command only when they have the same
    selector, the same table and the same nexthops with the same devices,
    addresses and weights, in the same order. *)
Theorem ecmp_command_determines_route (e1 e2 : ECMPRoute) :
  ecmpArgs e1 = ecmpArgs e2 <-> e1 = e2.
Proof.
  split; [|now intros ->].
  unfold ecmpArgs. rewrite !nexthopArgs_flat_map.
  destruct e1 as [r1 t1 n1], e2 as [r2 t2 n2]. simpl.
  intros E. injection E as -> -> E. apply nexthop_chunks_inj in E.
  now subst.
Qed.

(** ** The probes of the program of [README.md] *)

Lemma str_app_assoc (a b c : string) :
  ((a ++ b) ++ c)%string = (a ++ b ++ c)%string.
Proof. induction a as [|x a IH]; simpl; [reflexivity | now rewrite IH]. Qed.

Lemma str_app_nil_r (a : string) : (a ++ "")%string = a.
Proof. induction a as [|x a IH]; simpl; [reflexivity | now rewrite IH]. Qed.

Lemma occurs_trans (a b c : string) : occurs a b -> occurs b c -> occurs a c.
Proof.
  intros (p1 & q1 & ->) (p2 & q2 & ->).
  exists (p2 ++ p1)%string, (q1 ++ q2)%string.
  now rewrite !str_app_assoc.
Qed.

Lemma occurs_in_context (l pre post s : string) :
  occurs l s -> occurs l (pre ++ s ++ post).
Proof.
  intros Hl. apply (occurs_trans _ s); [exact Hl|]. now exists pre, post.
Qed.

Lemma string_of_list_ascii_snoc (l : list ascii) (c : ascii) :
  string_of_list_ascii (l ++ [c]) =
  (string_of_list_ascii l ++ String c "")%string.
Proof. induction l as [|x l IH]; simpl; [reflexivity | now rewrite IH]. Qed.

Lemma line_of_occurs (cur : list ascii) (rest : string) :
  occurs (GoStrings.line_of cur) (string_of_list_ascii (rev cur) ++ rest).
Proof.
  unfold GoStrings.line_of, GoStrings.dropCR.
  destruct cur as [|c cur]; [now exists "", rest|].
  destruct (Ascii.eqb c GoStrings.CR).
  - simpl rev. rewrite string_of_list_ascii_snoc, str_app_assoc.
    now exists "", (String c "" ++ rest)%string.
  - now exists "", rest.
Qed.

(** Every line the scanner yields is a piece of the text scanned. *)
Lemma scanLines_occurs (s : string) :
  forall (cur : list ascii) (l : string),
    In l (GoStrings.scanLines cur s) ->
    occurs l (string_of_list_ascii (rev cur) ++ s).
Proof.
  induction s as [|c s IH]; intros cur l Hin.
  - simpl in Hin. destruct cur as [|x cur]; [destruct Hin|].
    destruct (Nat.ltb _ _); [|destruct Hin].
    destruct Hin as [<-|[]]. apply line_of_occurs.
  - cbn [GoStrings.scanLines] in Hin.
    destruct (Ascii.eqb c GoStrings.LF).
    + destruct (Nat.ltb _ _); [|destruct Hin].
      destruct Hin as [<-|Hin]; [apply line_of_occurs|].
      apply IH in Hin. simpl in Hin.
      apply (occurs_trans _ s); [exact Hin|].
      exists (string_of_list_ascii (rev cur) ++ String c "")%string, "".
      now rewrite str_app_nil_r, str_app_assoc.
    + apply IH in Hin. simpl rev in Hin.
      now rewrite string_of_list_ascii_snoc, str_app_assoc in Hin.
Qed.

(** X14.  [ecmpRouteExists] never reports a route whose selector does
    not occur in the output of [ip route show table]: a yes means that
    one line of the output contains the selector. *)
Theorem ecmpRouteExists_needs_occurrence {H : Host} (route table : string)
  (st : State) :
  fst (Probed.ecmpRouteExists route table st) = true ->
  (exists line,
     In line (GoStrings.Lines (stdout_of st ["route"; "show"; "table"; table]))
     /\ occurs route line) /\
  occurs route (stdout_of st ["route"; "show"; "table"; table]).
Proof.
  rewrite probed_ecmpRouteExists_run, existsb_exists.
  intros (line & Hin & Hc). apply Contains_iff in Hc.
  split; [now exists line|].
  apply (occurs_trans _ line); [exact Hc|].
  apply (scanLines_occurs _ [] line Hin).
Qed.

Lemma ecmpRouteExists_needs_occurrence_witness :
  occurs "default"
    (stdout_of ecmpPresentState ["route"; "show"; "table"; "GRE"]).
Proof.
  exact (proj2 (@ecmpRouteExists_needs_occurrence (simHost []) "default" "GRE"
                  ecmpPresentState eq_refl)).
Defined.

(** X13.  [tunnelExists] answers yes exactly when the name occurs
    somewhere in the output of [ip tunnel show]; so it also answers yes
    for a name that is only a part of something the output mentions, such
    as the name of another interface. *)
Theorem tunnelExists_is_textual_containment {H : Host} (name : string)
  (st : State) :
  (fst (Probed.tunnelExists name st) = true <->
   occurs name (stdout_of st ["tunnel"; "show"])) /\
  (forall other,
     occurs name other -> occurs other (stdout_of st ["tunnel"; "show"]) ->
     fst (Probed.tunnelExists name st) = true).
Proof.
  assert (I : fst (Probed.tunnelExists name st) = true <->
              occurs name (stdout_of st ["tunnel"; "show"])).
  { now rewrite probed_tunnelExists_run, Contains_iff. }
  split; [exact I|].
  intros other H1 H2. apply I. now apply (occurs_trans _ other).
Qed.

Example gre1_deleted_because_of_gre10 :
  fst (Probed.tunnelExists "gre1" gre10State) = true /\
  fst (Probed.tunnelExists "gre10" gre10State) = true /\
  issued (calls (snd (Probed.tunnelBody gre1 gre10State))) =
  [["tunnel"; "show"]; delArgs gre1; addArgs gre1; addrArgs gre1;
   upArgs gre1].
Proof. repeat split. Qed.

(** X11.  In the program of [README.md], for every ECMP route of the
    configuration: the loop runs the probe of the route's table and then
    the route-add exactly when [ecmpRouteExists] has answered no; when it
    has answered yes, the probe is the only command run for this route.
    [st1] is the state in which the loop reaches the route, [st2] the
    state in which it goes on to the routes after it. *)
Theorem ecmp_route_added_iff_absent {H : Host} (st : State)
  (pre post : list ECMPRoute) (e : ECMPRoute) :
  ECMPRoutes (config st) = pre ++ e :: post ->
  let st1 := snd (forRange Probed.ecmpBody pre st) in
  let st2 := snd (Probed.ecmpBody e st1) in
  let present := fst (Probed.ecmpRouteExists (Route e) (Table e) st1) in
  Probed.setupECMPRoutes st = forRange Probed.ecmpBody post st2 /\
  issued (since st1 st2) =
    ["route"; "show"; "table"; Table e] ::
    (if present then [] else [ecmpArgs e]) /\
  (In (ecmpArgs e) (issued (since st1 st2)) <-> present = false).
Proof.
  intros Hcfg st1 st2 present.
  destruct (probed_ecmpBody_trace e st1) as [Hn Hi].
  fold st2 present in Hi. split; [|split].
  - unfold Probed.setupECMPRoutes, bind, getConfig.
    rewrite Hcfg, forRange_app.
    pose proof (forRange_nil_result Probed.ecmpBody pre
                  (fun x s => proj1 (probed_ecmpBody_trace x s)) st) as Hp.
    subst st1. destruct (forRange Probed.ecmpBody pre st) as [[x|] s1];
      [discriminate Hp|].
    rewrite forRange_cons. subst st2. cbn [snd] in *.
    now destruct (Probed.ecmpBody e s1) as [[x|] s2]; [discriminate Hn|].
  - exact Hi.
  - rewrite Hi. destruct present; split.
    + intros [E|[]]. discriminate E.
    + discriminate.
    + reflexivity.
    + intros _. right. now left.
Qed.

Lemma ecmp_route_added_iff_absent_witness :
  issued (since ecmpPresentState
            (snd (Probed.ecmpBody ecmpDefault ecmpPresentState)))
    = [["route"; "show"; "table"; "GRE"]] /\
  issued (since deadProbeState
            (snd (Probed.ecmpBody ecmpDefault deadProbeState)))
    = [["route"; "show"; "table"; "GRE"]; ecmpArgs ecmpDefault].
Proof.
  split.
  - exact (proj1 (proj2 (@ecmp_route_added_iff_absent (simHost [])
                           ecmpPresentState [] [] ecmpDefault eq_refl))).
  - exact (proj1 (proj2 (@ecmp_route_added_iff_absent (simHost [])
                           deadProbeState [] [] ecmpDefault eq_refl))).
Defined.

(** X12.  When [ecmpRouteExists] answers yes, the nexthops of the
    configured route play no part: the turn of the loop has the same
    result and leaves the same state for any list of nexthops, so a
    changed device, address or weight of a route that the table already
    shows is not applied. *)
Theorem present_ecmp_route_ignores_nexthops {H : Host} (e : ECMPRoute)
  (st : State) (nexthops : list Nexthop) :
  fst (Probed.ecmpRouteExists (Route e) (Table e) st) = true ->
  Probed.ecmpBody (mkECMPRoute (Route e) (Table e) nexthops) st =
  Probed.ecmpBody e st.
Proof.
  rewrite probed_ecmpRouteExists_run. unfold stdout_of.
  unfold Probed.ecmpBody, Probed.ecmpRouteExists, Probed.execCommand, bind,
    runCommand, ret. cbn [Route Table].
  destruct (os_run (os st) "ip" ["route"; "show"; "table"; Table e])
    as [o1 [out1 e1]].
  cbn [fst snd]. intros ->. reflexivity.
Qed.

Lemma present_ecmp_route_ignores_nexthops_witness :
  Probed.ecmpBody
    (mkECMPRoute "default" "GRE"
       [mkNexthop "gre1" "10.0.40.5" 2; mkNexthop "gre2" "10.0.41.5" 1])
    ecmpPresentState =
  Probed.ecmpBody ecmpDefault ecmpPresentState.
Proof.
  exact (@present_ecmp_route_ignores_nexthops (simHost []) ecmpDefault
           ecmpPresentState
           [mkNexthop "gre1" "10.0.40.5" 2; mkNexthop "gre2" "10.0.41.5" 1]
           eq_refl).
Defined.

Section Converged.
Context {H : Host}.
Variable shown : OS -> Prop.
Hypothesis probe_keeps :
  forall o, shown o -> shown (fst (os_run o "ip" ["route"; "show"])).

Lemma converged_static_loop (l : list StaticRoute) (st : State) :
  shown (os st) ->
  (forall o r, shown o -> In r l ->
     occurs (Destination r) (fst (snd (os_run o "ip" ["route"; "show"]))) /\
     occurs (Gateway r) (fst (snd (os_run o "ip" ["route"; "show"])))) ->
  issued (since st (snd (forRange Probed.staticBody l st))) =
    repeat ["route"; "show"] (List.length l) /\
  shown (os (snd (forRange Probed.staticBody l st))).
Proof.
  revert st. induction l as [|x l IH]; intros st Hst Hall.
  - simpl. rewrite since_refl. now split.
  - rewrite forRange_cons.
    destruct (probed_frame_staticBody x st) as (_ & _ & tr1 & Hc1 & _).
    destruct (probed_staticBody_trace x st) as [Hn Hi].
    assert (Hp : fst (Probed.routeExists (Destination x) (Gateway x) st)
                 = true).
    { rewrite probed_routeExists_run. unfold stdout_of.
      rewrite andb_true_iff, !Contains_iff. apply Hall; [exact Hst | now left]. }
    rewrite Hp in Hi.
    assert (Ho : os (snd (Probed.staticBody x st)) =
                 fst (os_run (os st) "ip" ["route"; "show"])).
    { rewrite probed_routeExists_run in Hp. unfold stdout_of in Hp.
      unfold Probed.staticBody, Probed.routeExists, Probed.execCommand, bind,
        runCommand, ret.
      destruct (os_run (os st) "ip" ["route"; "show"]) as [o1 [out1 e1]].
      cbn [fst snd] in Hp |- *. now rewrite Hp. }
    destruct (Probed.staticBody x st) as [[e1|] st1]; [discriminate Hn|].
    cbn [snd] in Hc1, Hi, Ho.
    destruct (frame_forRange _ _ l probed_frame_staticBody st1)
      as (_ & _ & tr2 & Hc2 & _).
    destruct (IH st1) as [IHi IHo].
    + rewrite Ho. now apply probe_keeps.
    + intros o r Hsh Hr. apply Hall; [exact Hsh | now right].
    + split; [|exact IHo].
      rewrite (since_trans _ _ _ _ _ Hc1 Hc2), issued_app, Hi, IHi.
      reflexivity.
Qed.

End Converged.

(** X15.  Idempotence of the static-route phase of the program of
    [README.md].  Take any set of states of the host that the probe
    [ip route show] does not lead out of, and in which the table printed
    has the destination and the gateway of every configured static route
    occurring in it.  Started on a host in such a state, the phase runs
    one probe per route and not a single route-add, and it leaves the
    host in such a state. *)
Theorem converged_static_phase_only_probes {H : Host} (shown : OS -> Prop)
  (st : State) :
  shown (os st) ->
  (forall o, shown o -> shown (fst (os_run o "ip" ["route"; "show"]))) ->
  (forall o r, shown o -> In r (StaticRoutes (config st)) ->
     occurs (Destination r) (fst (snd (os_run o "ip" ["route"; "show"]))) /\
     occurs (Gateway r) (fst (snd (os_run o "ip" ["route"; "show"])))) ->
  issued (since st (snd (Probed.setupStaticRoutes st))) =
    repeat ["route"; "show"] (List.length (StaticRoutes (config st))) /\
  shown (os (snd (Probed.setupStaticRoutes st))).
Proof.
  intros Hst Hkeep Hall. unfold Probed.setupStaticRoutes, bind, getConfig.
  now apply (converged_static_loop shown Hkeep).
Qed.

Lemma converged_static_phase_only_probes_witness :
  issued (since bothRoutesState (snd (Probed.setupStaticRoutes bothRoutesState)))
  = [["route"; "show"]; ["route"; "show"]].
Proof.
  refine (proj1 (@converged_static_phase_only_probes (simHost [])
                   (fun o => sim_stdout o = [(["route"; "show"], routeShowBoth)])
                   bothRoutesState eq_refl (fun o Ho => Ho) _)).
  intros o r Ho [<-|[<-|[]]]; cbn [os_run simHost sim_run fst snd];
    rewrite Ho; split; apply Contains_iff; reflexivity.
Defined.

(** ** The writer behind the logger *)

(** X16.  [logWriter.Write] of the program of [README.md] treats the
    three switches as one: with all of them off nothing is written and no
    error is returned; with any of them on the same line goes first to the
    standard output and then to the log file, and the error returned is
    that of the write to the log file, whatever the write to the standard
    output returned.  In every case it reports the full length of what it
    was given. *)
Theorem log_writer_all_or_nothing {W : Writers} (l : logWriter) (p : string)
  (k : Sink) :
  let r := logWriter_Write l p k in
  fst (fst r) = String.length p /\
  if infoEnabled l || errorEnabled l || debugEnabled l
  then
    written (snd r) =
      written k ++ [(Stdout, logLine p); (LogFile, logLine p)] /\
    snd (fst r) =
      snd (dev_write (fst (dev_write (device k) Stdout (logLine p)))
             LogFile (logLine p))
  else snd r = k /\ snd (fst r) = None.
Proof.
  unfold logWriter_Write, Logger_Output.
  destruct (infoEnabled l || errorEnabled l || debugEnabled l);
    [|repeat split].
  destruct (dev_write (device k) Stdout (logLine p)) as [d1 e1].
  cbn [device written fst snd].
  destruct (dev_write d1 LogFile (logLine p)) as [d2 e2].
  cbn [written fst snd]. repeat split. now rewrite <- app_assoc.
Qed.

Example error_lines_need_any_switch :
  written (snd (logWriter_Write (mkLogWriter false false false)
                  "Failed to add static route"
                  (@mkSink (simWriters []) tt []))) = [] /\
  written (snd (logWriter_Write (mkLogWriter false false true)
                  "Failed to add static route"
                  (@mkSink (simWriters [Stdout]) tt []))) =
  [(Stdout, "Failed to add static route" ++ String GoStrings.LF "");
   (LogFile, "Failed to add static route" ++ String GoStrings.LF "")]%string
  /\
  snd (fst (logWriter_Write (mkLogWriter false false true)
              "Failed to add static route"
              (@mkSink (simWriters [Stdout]) tt []))) = None.
Proof. repeat split. Qed.

(** ** Nothing configured *)

(** X18.  With no tunnel, no static route and no ECMP route configured, a
    pass of either program asks nothing of the host and leaves the state
    as it is. *)
Theorem empty_config_pass_is_noop {H : Host} (st : State) :
  GRETunnels (config st) = [] ->
  StaticRoutes (config st) = [] ->
  ECMPRoutes (config st) = [] ->
  Plain.pass st = (tt, st) /\ Probed.pass st = (tt, st).
Proof.
  intros Ht Hs He.
  unfold Plain.pass, Probed.pass, reconcile, bind,
    Plain.setupGRETunnels, Plain.setupStaticRoutes, Plain.setupECMPRoutes,
    Probed.setupGRETunnels, Probed.setupStaticRoutes, Probed.setupECMPRoutes,
    bind, getConfig.
  rewrite Ht. cbn [forRange ret logIfErr]. rewrite Hs.
  cbn [forRange ret logIfErr]. rewrite He. split; reflexivity.
Qed.

Lemma empty_config_pass_is_noop_witness :
  Plain.pass noTunnelState = (tt, noTunnelState) /\
  Probed.pass noTunnelState = (tt, noTunnelState).
Proof.
  exact (@empty_config_pass_is_noop (simHost []) noTunnelState
           eq_refl eq_refl eq_refl).
Defined.

(** ** What a pass of [main.go] touches *)

Section PlainReach.
Context {H : Host}.

Lemma plain_tunnel_loop_commands (l : list Tunnel) (st : State)
  (a : list string) :
  In a (issued (since st (snd (forRange Plain.tunnelBody l st)))) ->
  exists t,
    In t l /\ In a [delArgs t; addArgs t; addrArgs t; upArgs t].
Proof.
  revert st. induction l as [|x l IH]; intros st.
  - simpl. rewrite since_refl. intros [].
  - rewrite forRange_cons.
    destruct (plain_frame_tunnelBody x st) as (_ & _ & tr1 & Hc1 & _).
    destruct (plain_tunnelBody_cases x st) as [ed Hcases].
    cbv zeta in Hcases.
    assert (Hx : forall b,
              In b (issued (since st (snd (Plain.tunnelBody x st)))) ->
              In b [delArgs x; addArgs x; addrArgs x; upArgs x]).
    { intros b.
      destruct Hcases as [[e' [_ ->]] | [[e' [_ ->]] | [[e' [_ ->]] | [_ ->]]]];
        simpl; tauto. }
    destruct (Plain.tunnelBody x st) as [[e1|] st1]; cbn [snd] in *.
    + intros Hin. exists x. split; [now left | now apply Hx].
    + destruct (frame_forRange (inPhase isTunnelOp) Plain.tunnelBody l
                  plain_frame_tunnelBody st1) as (_ & _ & tr2 & Hc2 & _).
      rewrite (since_trans _ _ _ _ _ Hc1 Hc2), issued_app.
      intros Hin. apply in_app_or in Hin. destruct Hin as [Hin|Hin].
      * exists x. split; [now left | now apply Hx].
      * destruct (IH _ Hin) as (t & Ht & Ha). exists t. split; [now right|].
        exact Ha.
Qed.

End PlainReach.

(** X17.  A pass of [main.go] only ever touches what the configuration
    lists: each of its commands is the delete, add, address assignment or
    link-up of a configured tunnel, the route-add of a configured static
    route, or the command of a configured ECMP route.  Nothing is run for
    a tunnel or route that is no longer configured; no route is ever
    deleted or replaced. *)
Theorem pass_touches_only_configured_items {H : Host} (st : State)
  (a : list string) :
  In a (issued (since st (snd (Plain.pass st)))) ->
  (exists t, In t (GRETunnels (config st)) /\
             In a [delArgs t; addArgs t; addrArgs t; upArgs t]) \/
  (exists r, In r (StaticRoutes (config st)) /\ a = routeAddArgs r) \/
  (exists e, In e (ECMPRoutes (config st)) /\ a = ecmpArgs e).
Proof.
  rewrite plain_pass_trace. intros Hin.
  apply in_app_or in Hin. destruct Hin as [Hin|Hin].
  - left. unfold Plain.setupGRETunnels, bind, getConfig in Hin.
    now apply plain_tunnel_loop_commands in Hin.
  - right. apply in_app_or in Hin. destruct Hin as [Hin|Hin];
      apply in_map_iff in Hin; destruct Hin as (x & <- & Hx);
      [left | right]; now exists x.
Qed.

Lemma pass_touches_only_configured_items_witness :
  (exists t, In t [gre1; gre2] /\
             In (addArgs gre1) [delArgs t; addArgs t; addrArgs t; upArgs t]) \/
  (exists r, In r [route2; route3] /\ addArgs gre1 = routeAddArgs r) \/
  (exists e, In e [ecmpDefault] /\ addArgs gre1 = ecmpArgs e).
Proof.
  refine (@pass_touches_only_configured_items (simHost []) brokenExampleState
            (addArgs gre1) _).
  vm_compute. right. left. reflexivity.
Defined.

(** X19.  A write event of [main.go] that finds a new fingerprint and
    whose file then loads stores the fingerprint of the bytes hashed,
    replaces the configuration by what the bytes of the second read decode
    to, and runs the pass on that new configuration: tunnel phase, then
    the route-add of each of its static routes, then the command of each
    of its ECMP routes. *)
Theorem changed_file_is_reloaded_and_applied {H : Host} (filePath : string)
  (st : State) (o1 o2 : OS) (hashedBytes loadedBytes : string)
  (cfg : Config) :
  os_readFile (os st) filePath = (o1, (hashedBytes, None)) ->
  MD5.EncodeToString (MD5.Sum hashedBytes) <> currentHash st ->
  os_readFile o1 filePath = (o2, (loadedBytes, None)) ->
  yaml_Unmarshal loadedBytes (config st) = (cfg, None) ->
  let st2 :=
    mkState o2 (calls st ++ [ReadFile filePath None; ReadFile filePath None])
      (logs st) (MD5.EncodeToString (MD5.Sum hashedBytes)) cfg in
  let st' := snd (Plain.onWrite filePath st) in
  Plain.onWrite filePath st = Plain.pass st2 /\
  currentHash st' = MD5.EncodeToString (MD5.Sum hashedBytes) /\
  config st' = cfg /\
  issued (since st st') =
    issued (since st2 (snd (Plain.setupGRETunnels st2)))
    ++ map routeAddArgs (StaticRoutes cfg) ++ map ecmpArgs (ECMPRoutes cfg).
Proof.
  intros E1 Eh E2 Ey st2 st'.
  assert (Eq : Plain.onWrite filePath st = Plain.pass st2).
  { unfold Plain.onWrite. rewrite (onWrite_changed _ _ _ _ _ _ _ E1 Eh).
    unfold hashed, loadConfig, bind, ioReadFile, Unmarshal.
    cbn [os calls logs currentHash config]. rewrite E2. cbn [snd fst].
    cbn [os calls logs currentHash config]. rewrite Ey.
    subst st2. unfold Plain.pass. now rewrite <- app_assoc. }
  split; [exact Eq|]. subst st'. rewrite Eq.
  destruct (reconcile_trace _ _ _ plain_frame_setupGRETunnels
              plain_frame_setupStaticRoutes plain_frame_setupECMPRoutes st2)
    as (Hh & Hc & t & s & e & Hr & _).
  fold (@Plain.pass H) in Hh, Hc, Hr.
  split; [exact Hh | split; [exact Hc|]].
  pose proof (plain_pass_trace st2) as Hp.
  rewrite (since_app _ _ _ Hr) in Hp.
  change (config st2) with cfg in Hp. rewrite <- Hp.
  rewrite (since_app _ _
             ([ReadFile filePath None; ReadFile filePath None] ++ t ++ s ++ e)).
  - now rewrite issued_app.
  - rewrite Hr. subst st2. cbn [calls]. now rewrite <- !app_assoc.
Qed.

Lemma changed_file_is_reloaded_and_applied_witness :
  let st' := snd (Plain.onWrite "/path/to/config.yml" exampleStartState) in
  config st' = exampleConfig /\
  issued (since exampleStartState st') =
  [delArgs gre1; addArgs gre1; addrArgs gre1; upArgs gre1;
   delArgs gre2; addArgs gre2; addrArgs gre2; upArgs gre2;
   routeAddArgs route2; routeAddArgs route3; ecmpArgs ecmpDefault].
Proof.
  assert (N : MD5.EncodeToString (MD5.Sum "example")
              <> currentHash exampleStartState).
  { vm_compute. discriminate. }
  destruct (@changed_file_is_reloaded_and_applied
              (simHost [("example", exampleConfig)]) "/path/to/config.yml"
              exampleStartState
              (mkSim [("example", None)] [] []) (mkSim [] [] [])
              "example" "example" exampleConfig eq_refl N eq_refl eq_refl)
    as (_ & _ & Hc & Hi).
  split; [exact Hc|]. rewrite Hi. reflexivity.
Defined.
